(** * scrape.py: fetch one page and extract the text matched by an XPath

    A shallow embedding of the Ansible module [scrape.py]
    ([PageScraper] and [main]) together with the properties of its
    fetch / extract pipeline.

    Python values are an inductive type, dictionaries are finite maps
    with string keys, and the effects of the module (reading the clock,
    the one network request, [exit_json] / [fail_json] and uncaught
    exceptions) are threaded through a state-and-exit monad.  The
    libraries the module calls ([fetch_url], [lxml.html.fromstring],
    [doc.xpath]) are an interface the development is parametric in. *)

From Stdlib Require Import ZArith Ascii String List Lia SpecFloat.
From stdpp Require Import base option gmap strings list fin_maps.
Import ListNotations.
Set Warnings "-register-all".
Local Open Scope Z_scope.
Local Open Scope string_scope.

(** ** Python values *)

(** The values that travel through the module: parameters, the
    normalised match and the keyword arguments of the exit calls. *)
Inductive pyval : Type :=
| PNone
| PBool (b : bool)
| PInt (z : Z)
| PFloat (f : spec_float)
| PStr (s : string)
| PObj (repr : string)
| PList (l : list pyval).

(** [x is not None] *)
Definition is_not_None (v : pyval) : bool :=
  match v with
  | PNone => false
  | _ => true
  end.

(** Exceptions that escape the module when nothing catches them. *)
Inductive exn : Type :=
| KeyError (key : string)
| AttributeError (msg : string)
| ParserError (msg : string)
| XPathEvalError (msg : string)
| OtherError (msg : string).

(** ** The document tree

    An element in the lxml data model: tag, attributes, the text before
    the first child, the children, and the tail text that follows the
    element's closing tag inside its parent. *)
Inductive HtmlElement : Type :=
| Element (tag : string) (attrib : list (string * string))
          (text : string) (children : list HtmlElement) (tail : string).

Definition el_tail (e : HtmlElement) : string :=
  match e with Element _ _ _ _ tl => tl end.

Definition el_children (e : HtmlElement) : list HtmlElement :=
  match e with Element _ _ _ cs _ => cs end.

(** [element.text_content()]: the string value of the element, i.e. its
    own text followed, for every child in order, by the child's string
    value and the child's tail. *)
Fixpoint text_content (e : HtmlElement) : string :=
  match e with
  | Element _ _ text children _ =>
      text ++
      (fix over (cs : list HtmlElement) : string :=
         match cs with
         | [] => ""
         | c :: cs' => text_content c ++ el_tail c ++ over cs'
         end) children
  end.



(** ** XPath results

    What [doc.xpath(expr)] hands back: a list (node sets are always
    lists, whose members are elements, attribute values or text), or a
    bare string, number or boolean for expressions such as [string(..)],
    [count(..)] or comparisons.  Nodes that are not [HtmlElement]
    instances (comments, processing instructions) are kept opaque. *)
Inductive xobj : Type :=
| XElement (e : HtmlElement)
| XList (l : list xobj)
| XStr (s : string)
| XFloat (f : spec_float)
| XBool (b : bool)
| XOther (repr : string).

(** [PageScraper._get_element_text] *)
Fixpoint _get_element_text (element : xobj) : pyval :=
  match element with
  | XElement e => PStr (text_content e)
  | XList l =>
      match l with
      | [] => PNone
      | _ => PList (map _get_element_text l)
      end
  | XStr s => PStr s
  | XFloat f => PFloat f
  | XBool b => PBool b
  | XOther r => PObj r
  end.

(** ** Effects

    A run reads the clock, performs one network request and hands the
    body to the HTML library; it ends by returning, by [exit_json] or
    [fail_json] (both leave the process), or by an exception nobody
    catches.  The world records the clock, in microseconds since the
    epoch, and the calls made to the outside in the order they
    happened. *)

Inductive method : Type := HEAD | GET.

(** The [info] dictionary of [fetch_url]: [status] is always an
    integer ([-1] when no HTTP response was received); [msg] is looked
    up both with [info['msg']] and with [info.get('msg', '')], hence an
    option. *)
Record info : Type := { status : Z; msg : option string }.

Inductive event : Type :=
| EvFetch (m : method) (url : pyval) (timeout : pyval)
| EvParse (body : string)
| EvXPath (expr : pyval).

Record world : Type := { now : Z; trace : list event }.

Inductive outcome (A : Type) : Type :=
| Ret (a : A)
| ExitJson (kw : gmap string pyval)
| FailJson (kw : gmap string pyval)
| Raised (e : exn).
Arguments Ret {A} a.
Arguments ExitJson {A} kw.
Arguments FailJson {A} kw.
Arguments Raised {A} e.

Definition M (A : Type) : Type := world -> outcome A * world.

#[global] Instance M_ret : MRet M := fun A a w => (Ret a, w).
#[global] Instance M_bind : MBind M := fun A B f c w =>
  match c w with
  | (Ret a, w') => f a w'
  | (ExitJson kw, w') => (ExitJson kw, w')
  | (FailJson kw, w') => (FailJson kw, w')
  | (Raised e, w') => (Raised e, w')
  end.

(** [module.exit_json] and [module.fail_json] print their
    keyword arguments and leave the process; [raise] is an exception
    that is not caught anywhere in the module.  The keyword arguments
    are taken to be printable: that [exit_json] fails on a value it
    cannot write as JSON is not part of the model, and statements
    about what is printed carry [json_serialisable] as a
    hypothesis. *)
Definition exit_json {A : Type} (kw : gmap string pyval) : M A :=
  fun w => (ExitJson kw, w).
Definition fail_json {A : Type} (kw : gmap string pyval) : M A :=
  fun w => (FailJson kw, w).
Definition raise {A : Type} (e : exn) : M A :=
  fun w => (Raised e, w).

Definition emit (ev : event) : M unit :=
  fun w => (Ret tt, {| now := now w; trace := (trace w ++ [ev])%list |}).

(** [d[key]] on a dictionary: [KeyError] when the key is missing. *)
Definition getitem (d : gmap string pyval) (key : string) : M pyval :=
  match d !! key with
  | Some v => mret v
  | None => raise (KeyError key)
  end.

(** [d.get(key, dflt)] *)
Definition get (d : gmap string pyval) (key : string) (dflt : pyval) : pyval :=
  default dflt (d !! key).

(** Truth value of a Python object, as tested by [if x:]. *)
Definition truthy (v : pyval) : bool :=
  match v with
  | PNone => false
  | PBool b => b
  | PInt z => negb (Z.eqb z 0)
  | PFloat f => match f with S754_zero _ => false | _ => true end
  | PStr s => negb (String.eqb s "")
  | PObj _ => true
  | PList l => match l with [] => false | _ => true end
  end.

(** [datetime.datetime.utcnow()] *)
Definition utcnow : M Z := fun w => (Ret (now w), w).

(** [timedelta.seconds]: a [timedelta] of [d] microseconds is kept as
    days, seconds in [0, 86400) and microseconds in [0, 10^6); the
    attribute is the seconds component. *)
Definition timedelta_seconds (d : Z) : Z := (d `mod` 86400000000) `div` 1000000.

(** ** The libraries the module calls

    [net m url timeout] is what the one request does: how long it
    takes (microseconds of wall clock), the response object (its body,
    or [None]) and the [info] dictionary.  [lx_fromstring] is
    [lxml.html.fromstring] and [lx_xpath] is the [xpath] method of the
    parsed document; both either raise or return.  [fetch_url] is
    taken to return: it reports a failed request through [info], with
    status [-1] when there was no HTTP response. *)
Class Libs : Type := {
  net : method -> pyval -> pyval -> Z * option string * info;
  lx_fromstring : string -> exn + HtmlElement;
  lx_xpath : HtmlElement -> pyval -> exn + xobj
}.

(** ** The Ansible module object

    [basic.AnsibleModule(argument_spec=..., supports_check_mode=...)]
    validates the arguments the task supplied and exposes them as
    [module.params].  Of that library class the model keeps what the
    scraper depends on: a missing required argument fails the run, and
    every key of the argument spec that was not supplied is entered in
    [params] with its default, which is [None] when the spec gives
    none (the class ends its argument handling with: for each key of
    the spec, [if k not in param: param[k] = default]).  Argument
    values are taken as already converted to their declared type and
    the task as giving no argument outside the spec: the class fails
    on a value it cannot convert and on an undeclared argument before
    the scraper is built, and neither check is part of the model.  The
    texts of the library's own messages are abridged. *)

Inductive argtype : Type := TStr | TInt.

Record argspec : Type := {
  required : bool;
  type_ : argtype;
  default_ : option pyval
}.

Record AnsibleModule : Type := {
  params : gmap string pyval;
  check_mode : bool
}.

Definition supplied (args : gmap string pyval) (k : string) : bool :=
  match args !! k with Some _ => true | None => false end.

Definition missing_required (spec : list (string * argspec))
    (args : gmap string pyval) : list string :=
  map fst (List.filter (fun ka => required (snd ka) && negb (supplied args (fst ka))) spec).

Definition set_defaults (spec : list (string * argspec))
    (args : gmap string pyval) : gmap string pyval :=
  fold_left
    (fun param ka =>
       if supplied param (fst ka) then param
       else <[fst ka := default PNone (default_ (snd ka))]> param)
    spec args.

Fixpoint comma_join (l : list string) : string :=
  match l with
  | [] => ""
  | [x] => x
  | x :: l' => x ++ ", " ++ comma_join l'
  end.

Definition basic_AnsibleModule (argument_spec : list (string * argspec))
    (supports_check_mode : bool)
    (args : gmap string pyval) (check : bool) : M AnsibleModule :=
  if check && negb supports_check_mode then
    exit_json {[ "skipped" := PBool true;
                 "msg" := PStr "remote module does not support check mode" ]}
  else
    match missing_required argument_spec args with
    | [] => mret {| params := set_defaults argument_spec args; check_mode := check |}
    | missing =>
        fail_json {[ "msg" := PStr ("missing required arguments: " ++ comma_join missing);
                     "failed" := PBool true ]}
    end.

(** ** PageScraper *)

Record PageScraper : Type := {
  self_module : AnsibleModule;
  self_url : pyval;
  self_xpath : pyval;
  self_timeout : pyval;
  self_content : string
}.

Section Scraper.
Context {L : Libs}.

(** [fetch_url(module, url, method=method, timeout=timeout)]: the one
    request of the run.  The wall clock advances by the time the request
    took. *)
Definition fetch_url (url : pyval) (m : method) (timeout : pyval)
    : M (option string * info) :=
  fun w =>
    let '(dt, resp, inf) := net m url timeout in
    (Ret (resp, inf),
     {| now := now w + dt; trace := (trace w ++ [EvFetch m url timeout])%list |}).

(** [resp.read()]; the response object is [None] when there was no
    response. *)
Definition read (resp : option string) : M string :=
  match resp with
  | Some body => mret body
  | None => raise (AttributeError "'NoneType' object has no attribute 'read'")
  end.

(** [lxml.html.fromstring(content)] *)
Definition fromstring (content : string) : M HtmlElement :=
  emit (EvParse content);;
  match lx_fromstring content with
  | inl e => raise e
  | inr doc => mret doc
  end.

(** [doc.xpath(expr)] *)
Definition doc_xpath (doc : HtmlElement) (expr : pyval) : M xobj :=
  emit (EvXPath expr);;
  match lx_xpath doc expr with
  | inl e => raise e
  | inr elem => mret elem
  end.

(** [PageScraper.__init__] *)
Definition __init__ (module : AnsibleModule) : M PageScraper :=
  url ← getitem (params module) "url";
  xpath ← getitem (params module) "xpath";
  let timeout := get (params module) "timeout" (PInt 10) in
  mret {| self_module := module;
          self_url := url;
          self_xpath := xpath;
          self_timeout := timeout;
          self_content := "" |}.

(** [PageScraper._get_content] *)
Definition _get_content (self : PageScraper) : M string :=
  if truthy (PStr (self_content self)) then mret (self_content self)
  else
    let method := if check_mode (self_module self) then HEAD else GET in
    start ← utcnow;
    ri ← fetch_url (self_url self) method (self_timeout self);
    let resp := fst ri in
    let info := snd ri in
    finish ← utcnow;
    let elapsed := timedelta_seconds (finish - start) in
    (if bool_decide (status info = 304) then
       exit_json {[ "url" := self_url self;
                    "changed" := PBool false;
                    "msg" := PStr (default "" (msg info));
                    "elapsed" := PInt elapsed ]}
     else mret tt);;
    (if bool_decide (status info = -1) then
       match msg info with
       | Some m =>
           fail_json {[ "url" := self_url self;
                        "msg" := PStr m;
                        "elapsed" := PInt elapsed ]}
       | None => raise (KeyError "msg")
       end
     else mret tt);;
    (if bool_decide (status info ≠ 200) then
       match msg info with
       | Some m =>
           fail_json {[ "url" := self_url self;
                        "msg" := PStr "Request failed";
                        "response" := PStr m;
                        "status_code" := PInt (status info);
                        "elapsed" := PInt elapsed ]}
       | None => raise (KeyError "msg")
       end
     else mret tt);;
    read resp.

(** [PageScraper.scrape]: the element's contents at [xpath]. *)
Definition scrape (self : PageScraper) : M (gmap string pyval) :=
  content ← _get_content self;
  doc ← fromstring content;
  elem ← doc_xpath doc (self_xpath self);
  let content := _get_element_text elem in
  mret {[ "matched" := PBool (is_not_None content); "content" := content ]}.

(** The argument spec that [main] hands to [AnsibleModule]. *)
Definition argument_spec : list (string * argspec) :=
  [ ("url", {| required := true; type_ := TStr; default_ := None |});
    ("xpath", {| required := true; type_ := TStr; default_ := None |});
    ("timeout", {| required := false; type_ := TInt; default_ := None |}) ].

(** [main]: [args] are the arguments the task supplied and [check]
    tells whether the task runs in check mode. *)
Definition main (args : gmap string pyval) (check : bool) : M unit :=
  module ← basic_AnsibleModule argument_spec true args check;
  scraper ← __init__ module;
  result ← scrape scraper;
  matched ← getitem result "matched";
  let result := if truthy matched then <["changed" := PBool true]> result else result in
  exit_json result.

End Scraper.

(** ** A small stand-in for the libraries

    Concrete instances of the interface, used to run the module on
    examples: a server that answers every request the same way, a
    parser that knows two documents and wraps any other non-empty body
    in a paragraph, and an XPath evaluator for expressions of the form
    [//tag]. *)
Module Demo.

Definition release_src : string :=
  "<div class='release-header'><a href='/v1.2.3'>v1.2.3</a></div>".

Definition release_doc : HtmlElement :=
  Element "div" [("class", "release-header")] ""
    [Element "a" [("href", "/v1.2.3")] "v1.2.3" [] ""] "".

Definition items_src : string :=
  "<ul><li>one</li><li>two <b>2</b>!</li><li>three</li></ul>".

Definition items_doc : HtmlElement :=
  Element "ul" [] ""
    [Element "li" [] "one" [] "";
     Element "li" [] "two " [Element "b" [] "2" [] "!"] "";
     Element "li" [] "three" [] ""] "".

Definition stub_fromstring (html : string) : exn + HtmlElement :=
  if String.eqb html "" then inl (ParserError "Document is empty")
  else if String.eqb html release_src then inr release_doc
  else if String.eqb html items_src then inr items_doc
  else inr (Element "p" [] html [] "").

Definition el_tag (e : HtmlElement) : string :=
  match e with Element t _ _ _ _ => t end.

(** The element and everything below it, in document order. *)
Fixpoint descendants_or_self (e : HtmlElement) : list HtmlElement :=
  match e with
  | Element _ _ _ children _ =>
      e ::
      (fix over (cs : list HtmlElement) : list HtmlElement :=
         match cs with
         | [] => []
         | c :: cs' => (descendants_or_self c ++ over cs')%list
         end) children
  end.

Definition is_letter (a : Ascii.ascii) : bool :=
  let n := Ascii.nat_of_ascii a in
  ((97 <=? n) && (n <=? 122))%nat.

Fixpoint all_letters (s : string) : bool :=
  match s with
  | EmptyString => true
  | String a s' => is_letter a && all_letters s'
  end.

Definition stub_xpath (doc : HtmlElement) (expr : pyval) : exn + xobj :=
  match expr with
  | PStr (String "/"%char (String "/"%char name)) =>
      if negb (String.eqb name "") && all_letters name then
        inr (XList (map XElement
               (List.filter (fun e => String.eqb (el_tag e) name)
                  (descendants_or_self doc))))
      else inl (XPathEvalError "Invalid expression")
  | PStr _ => inl (XPathEvalError "Invalid expression")
  | _ => inl (OtherError "XPath expression must be a string")
  end.

(** A server that takes [dt] microseconds, answers with status [st]
    and message [m], and sends [body] on GET and nothing on HEAD. *)
Definition server (dt : Z) (st : Z) (m : option string) (body : option string) : Libs :=
  {| net := fun meth _ _ =>
       (dt,
        match meth with
        | GET => body
        | HEAD => match body with Some _ => Some "" | None => None end
        end,
        {| status := st; msg := m |});
     lx_fromstring := stub_fromstring;
     lx_xpath := stub_xpath |}.

Definition w0 : world := {| now := 1572900000000000; trace := [] |}.

Definition task (xpath : string) : gmap string pyval :=
  {[ "url" := PStr "https://example.test/release"; "xpath" := PStr xpath ]}.

End Demo.

(** ** Worlds and objects along a run *)

(** The world once the scraper's request has been made: the clock has
    advanced by the time the request took and the request is on the
    trace. *)
Definition after_fetch (self : PageScraper) (dt : Z) (w : world) : world :=
  {| now := now w + dt;
     trace := (trace w ++
               [EvFetch (if check_mode (self_module self) then HEAD else GET)
                        (self_url self) (self_timeout self)])%list |}.

(** The worlds after the parser and after the XPath evaluation have
    been called. *)
Definition after_parse (body : string) (w : world) : world :=
  {| now := now w; trace := (trace w ++ [EvParse body])%list |}.

Definition after_query (body : string) (expr : pyval) (w : world) : world :=
  {| now := now w; trace := ((trace w ++ [EvParse body]) ++ [EvXPath expr])%list |}.

(** Telling the request apart from the other events. *)
Definition is_fetch (ev : event) : bool :=
  match ev with
  | EvFetch _ _ _ => true
  | _ => false
  end.

(** The scraper object that [main] builds. *)
Definition main_scraper (args : gmap string pyval) (check : bool)
    (u x : pyval) : PageScraper :=
  {| self_module := {| params := set_defaults argument_spec args;
                       check_mode := check |};
     self_url := u;
     self_xpath := x;
     self_timeout := get (set_defaults argument_spec args) "timeout" (PInt 10);
     self_content := "" |}.

(** What [main] does with the record that [scrape] returns. *)
Definition report (result : gmap string pyval) : M unit :=
  matched ← getitem result "matched";
  exit_json (if truthy matched then <["changed" := PBool true]> result else result).


(** Values that [exit_json] can print as JSON: everything but the
    opaque objects, at any depth. *)
Fixpoint json_serialisable (v : pyval) : bool :=
  match v with
  | PObj _ => false
  | PList l => forallb json_serialisable l
  | _ => true
  end.

(** ** Example runs *)

Module Examples.

Definition url : pyval := PStr "https://example.test/release".

(** A server that answers 200 with the three-item list after 2.5 s. *)
Definition items_server : Libs :=
  Demo.server 2500000 200 (Some "OK (57 bytes)") (Some Demo.items_src).

(** The scraper [main] builds for the task [url], [xpath], no timeout. *)
Definition scraper (xpath : string) (check : bool) : PageScraper :=
  main_scraper (Demo.task xpath) check url (PStr xpath).

Definition fetched (m : method) : world :=
  {| now := 1572900002500000; trace := [EvFetch m url PNone] |}.

Definition queried (m : method) (body xpath : string) : world :=
  {| now := 1572900002500000;
     trace := [EvFetch m url PNone; EvParse body; EvXPath (PStr xpath)] |}.

End Examples.

(** ** Running the fetch *)

Lemma elapsed_of_fetch (t dt : Z) : t + dt - t = dt.
Proof. lia. Qed.

(** Less than a day: the seconds component is the elapsed time
    truncated to whole seconds. *)
Lemma timedelta_seconds_small (d : Z) :
  0 <= d < 86400000000 -> timedelta_seconds d = d `div` 1000000.
Proof.
  intros Hd. unfold timedelta_seconds. now rewrite Z.mod_small.
Qed.

Lemma timedelta_seconds_range (d : Z) : 0 <= timedelta_seconds d < 86400.
Proof.
  unfold timedelta_seconds.
  pose proof (Z.mod_pos_bound d 86400000000 ltac:(lia)) as Hm.
  split.
  - apply Z.div_pos; lia.
  - apply Z.div_lt_upper_bound; lia.
Qed.

Ltac run_fetch Hc Hnet :=
  unfold _get_content; rewrite Hc; cbn [truthy String.eqb negb];
  unfold mbind, M_bind, utcnow, fetch_url; rewrite Hnet;
  cbn [now trace fst snd status msg]; rewrite elapsed_of_fetch.

Section Fetching.
Context {L : Libs}.


Lemma get_content_304 (self : PageScraper) (w : world) dt resp inf :
  self_content self = "" ->
  net (if check_mode (self_module self) then HEAD else GET)
      (self_url self) (self_timeout self) = (dt, resp, inf) ->
  status inf = 304 ->
  _get_content self w =
    (ExitJson {[ "url" := self_url self;
                 "changed" := PBool false;
                 "msg" := PStr (default "" (msg inf));
                 "elapsed" := PInt (timedelta_seconds dt) ]},
     after_fetch self dt w).
Proof.
  intros Hc Hnet Hs. run_fetch Hc Hnet.
  rewrite bool_decide_eq_true_2 by exact Hs. reflexivity.
Qed.

Lemma get_content_no_response (self : PageScraper) (w : world) dt resp inf m :
  self_content self = "" ->
  net (if check_mode (self_module self) then HEAD else GET)
      (self_url self) (self_timeout self) = (dt, resp, inf) ->
  status inf = -1 ->
  msg inf = Some m ->
  _get_content self w =
    (FailJson {[ "url" := self_url self;
                 "msg" := PStr m;
                 "elapsed" := PInt (timedelta_seconds dt) ]},
     after_fetch self dt w).
Proof.
  intros Hc Hnet Hs Hm. run_fetch Hc Hnet.
  rewrite bool_decide_eq_false_2 by lia. cbn [mret M_ret].
  rewrite bool_decide_eq_true_2 by exact Hs. rewrite Hm. reflexivity.
Qed.

Lemma get_content_bad_status (self : PageScraper) (w : world) dt resp inf m :
  self_content self = "" ->
  net (if check_mode (self_module self) then HEAD else GET)
      (self_url self) (self_timeout self) = (dt, resp, inf) ->
  status inf <> 304 -> status inf <> -1 -> status inf <> 200 ->
  msg inf = Some m ->
  _get_content self w =
    (FailJson {[ "url" := self_url self;
                 "msg" := PStr "Request failed";
                 "response" := PStr m;
                 "status_code" := PInt (status inf);
                 "elapsed" := PInt (timedelta_seconds dt) ]},
     after_fetch self dt w).
Proof.
  intros Hc Hnet H304 H1 H200 Hm. run_fetch Hc Hnet.
  rewrite bool_decide_eq_false_2 by exact H304. cbn [mret M_ret].
  rewrite bool_decide_eq_false_2 by exact H1. cbn [mret M_ret].
  rewrite bool_decide_eq_true_2 by exact H200. rewrite Hm. reflexivity.
Qed.

Lemma get_content_200 (self : PageScraper) (w : world) dt inf body :
  self_content self = "" ->
  net (if check_mode (self_module self) then HEAD else GET)
      (self_url self) (self_timeout self) = (dt, Some body, inf) ->
  status inf = 200 ->
  _get_content self w = (Ret body, after_fetch self dt w).
Proof.
  intros Hc Hnet Hs. run_fetch Hc Hnet.
  rewrite bool_decide_eq_false_2 by lia. cbn [mret M_ret].
  rewrite bool_decide_eq_false_2 by lia. cbn [mret M_ret].
  rewrite bool_decide_eq_false_2 by (intros H; apply H; exact Hs).
  reflexivity.
Qed.

(** Whatever the answer, a scraper that holds no content makes its
    request first: the world after [_get_content] is the world after
    the fetch. *)
Lemma get_content_world (self : PageScraper) (w : world) :
  self_content self = "" ->
  snd (_get_content self w) =
    after_fetch self
      (fst (fst (net (if check_mode (self_module self) then HEAD else GET)
                     (self_url self) (self_timeout self)))) w.
Proof.
  intros Hc.
  destruct (net (if check_mode (self_module self) then HEAD else GET)
                (self_url self) (self_timeout self)) as [[dt resp] inf] eqn:Hnet.
  run_fetch Hc Hnet. cbn [fst].
  repeat (case_bool_decide; cbn [mret M_ret]; try reflexivity;
          try (destruct (msg inf); reflexivity)).
  destruct resp; reflexivity.
Qed.

End Fetching.

(** ** Running the extraction *)

Section Extraction.
Context {L : Libs}.

(** When the fetch leaves the process, [scrape] does nothing more. *)
Lemma scrape_exit (self : PageScraper) (w w' : world) kw :
  _get_content self w = (ExitJson kw, w') -> scrape self w = (ExitJson kw, w').
Proof. intros H. unfold scrape, mbind, M_bind. now rewrite H. Qed.

Lemma scrape_fail (self : PageScraper) (w w' : world) kw :
  _get_content self w = (FailJson kw, w') -> scrape self w = (FailJson kw, w').
Proof. intros H. unfold scrape, mbind, M_bind. now rewrite H. Qed.

Lemma scrape_raised (self : PageScraper) (w w' : world) e :
  _get_content self w = (Raised e, w') -> scrape self w = (Raised e, w').
Proof. intros H. unfold scrape, mbind, M_bind. now rewrite H. Qed.

Lemma scrape_parse_error (self : PageScraper) (w w1 : world) body e :
  _get_content self w = (Ret body, w1) ->
  lx_fromstring body = inl e ->
  scrape self w = (Raised e, after_parse body w1).
Proof.
  intros Hg Hp. unfold scrape, mbind, M_bind. rewrite Hg.
  unfold fromstring, mbind, M_bind, emit. now rewrite Hp.
Qed.

Lemma scrape_query_error (self : PageScraper) (w w1 : world) body doc e :
  _get_content self w = (Ret body, w1) ->
  lx_fromstring body = inr doc ->
  lx_xpath doc (self_xpath self) = inl e ->
  scrape self w = (Raised e, after_query body (self_xpath self) w1).
Proof.
  intros Hg Hp Hx. unfold scrape, mbind, M_bind. rewrite Hg.
  unfold fromstring, doc_xpath, mbind, M_bind, emit. rewrite Hp.
  cbn [mret M_ret now trace]. now rewrite Hx.
Qed.

Lemma scrape_result (self : PageScraper) (w w1 : world) body doc elem :
  _get_content self w = (Ret body, w1) ->
  lx_fromstring body = inr doc ->
  lx_xpath doc (self_xpath self) = inr elem ->
  scrape self w =
    (Ret {[ "matched" := PBool (is_not_None (_get_element_text elem));
            "content" := _get_element_text elem ]},
     after_query body (self_xpath self) w1).
Proof.
  intros Hg Hp Hx. unfold scrape, mbind, M_bind. rewrite Hg.
  unfold fromstring, doc_xpath, mbind, M_bind, emit. rewrite Hp.
  cbn [mret M_ret now trace]. now rewrite Hx.
Qed.

(** A record comes out of [scrape] only along the path of
    [scrape_result]. *)
Lemma scrape_returns (self : PageScraper) (w w' : world) r :
  scrape self w = (Ret r, w') ->
  exists body w1 doc elem,
    _get_content self w = (Ret body, w1) /\
    lx_fromstring body = inr doc /\
    lx_xpath doc (self_xpath self) = inr elem /\
    r = {[ "matched" := PBool (is_not_None (_get_element_text elem));
           "content" := _get_element_text elem ]} /\
    w' = after_query body (self_xpath self) w1.
Proof.
  intros H.
  destruct (_get_content self w) as [[body | kw | kw | e] w1] eqn:Hg.
  - destruct (lx_fromstring body) as [e | doc] eqn:Hp.
    + rewrite (scrape_parse_error _ _ _ _ _ Hg Hp) in H. discriminate.
    + destruct (lx_xpath doc (self_xpath self)) as [e | elem] eqn:Hx.
      * rewrite (scrape_query_error _ _ _ _ _ _ Hg Hp Hx) in H. discriminate.
      * rewrite (scrape_result _ _ _ _ _ _ Hg Hp Hx) in H.
        injection H as Hr Hw. exists body, w1, doc, elem. auto.
  - rewrite (scrape_exit _ _ _ _ Hg) in H. discriminate.
  - rewrite (scrape_fail _ _ _ _ Hg) in H. discriminate.
  - rewrite (scrape_raised _ _ _ _ Hg) in H. discriminate.
Qed.

End Extraction.

(** ** Text normalisation *)




Lemma is_not_None_spec (v : pyval) : is_not_None v = true <-> v <> PNone.
Proof. destruct v; cbn; split; intros; congruence. Qed.

(** ** From [main] to the scraper *)

Lemma supplied_Some (args : gmap string pyval) (k : string) (v : pyval) :
  args !! k = Some v -> supplied args k = true.
Proof. intros H. unfold supplied. now rewrite H. Qed.


Section Running.
Context {L : Libs}.

(** With both required arguments supplied, only [timeout] can be
    missing, and it is then entered as [None]. *)
Lemma set_defaults_main (args : gmap string pyval) (u x : pyval) :
  args !! "url" = Some u -> args !! "xpath" = Some x ->
  set_defaults argument_spec args =
    if supplied args "timeout" then args else <["timeout" := PNone]> args.
Proof.
  intros Hu Hx. unfold set_defaults, argument_spec.
  cbn [fold_left fst snd default_ default].
  rewrite (supplied_Some _ _ _ Hu), (supplied_Some _ _ _ Hx). reflexivity.
Qed.

Lemma missing_required_main (args : gmap string pyval) (u x : pyval) :
  args !! "url" = Some u -> args !! "xpath" = Some x ->
  missing_required argument_spec args = [].
Proof.
  intros Hu Hx. unfold missing_required, argument_spec.
  cbn [List.filter fst snd required andb negb].
  rewrite (supplied_Some _ _ _ Hu), (supplied_Some _ _ _ Hx). reflexivity.
Qed.

Lemma params_keep (args : gmap string pyval) (u x : pyval) (k : string) (v : pyval) :
  args !! "url" = Some u -> args !! "xpath" = Some x ->
  args !! k = Some v ->
  set_defaults argument_spec args !! k = Some v.
Proof.
  intros Hu Hx Hk. rewrite (set_defaults_main _ _ _ Hu Hx).
  destruct (supplied args "timeout") eqn:Ht; [exact Hk |].
  destruct (decide (k = "timeout")) as [-> | Hne].
  - unfold supplied in Ht. rewrite Hk in Ht. discriminate.
  - rewrite lookup_insert_ne by congruence. exact Hk.
Qed.


Lemma main_scrapes (args : gmap string pyval) (check : bool) (u x : pyval) (w : world) :
  args !! "url" = Some u -> args !! "xpath" = Some x ->
  main args check w = (scrape (main_scraper args check u x) ≫= report) w.
Proof.
  intros Hu Hx. unfold main, basic_AnsibleModule.
  rewrite andb_false_r, (missing_required_main _ _ _ Hu Hx).
  unfold __init__, getitem, mbind, M_bind, mret, M_ret. cbn [params].
  rewrite (params_keep _ _ _ _ _ Hu Hx Hu), (params_keep _ _ _ _ _ Hu Hx Hx).
  reflexivity.
Qed.

(** [main] adds nothing when the scraper has left the process or
    raised. *)
Lemma main_exit (args : gmap string pyval) check u x (w w' : world) kw :
  args !! "url" = Some u -> args !! "xpath" = Some x ->
  scrape (main_scraper args check u x) w = (ExitJson kw, w') ->
  main args check w = (ExitJson kw, w').
Proof.
  intros Hu Hx H. rewrite (main_scrapes _ _ _ _ _ Hu Hx).
  unfold mbind, M_bind. now rewrite H.
Qed.

Lemma main_fail (args : gmap string pyval) check u x (w w' : world) kw :
  args !! "url" = Some u -> args !! "xpath" = Some x ->
  scrape (main_scraper args check u x) w = (FailJson kw, w') ->
  main args check w = (FailJson kw, w').
Proof.
  intros Hu Hx H. rewrite (main_scrapes _ _ _ _ _ Hu Hx).
  unfold mbind, M_bind. now rewrite H.
Qed.

Lemma main_raised (args : gmap string pyval) check u x (w w' : world) e :
  args !! "url" = Some u -> args !! "xpath" = Some x ->
  scrape (main_scraper args check u x) w = (Raised e, w') ->
  main args check w = (Raised e, w').
Proof.
  intros Hu Hx H. rewrite (main_scrapes _ _ _ _ _ Hu Hx).
  unfold mbind, M_bind. now rewrite H.
Qed.

(** The record that [scrape] returns is printed, with [changed] added
    when something matched. *)
Lemma main_result (args : gmap string pyval) check u x (w w' : world) c :
  args !! "url" = Some u -> args !! "xpath" = Some x ->
  scrape (main_scraper args check u x) w =
    (Ret {[ "matched" := PBool (is_not_None c); "content" := c ]}, w') ->
  main args check w =
    (ExitJson (if is_not_None c
               then <["changed" := PBool true]>
                      {[ "matched" := PBool (is_not_None c); "content" := c ]}
               else {[ "matched" := PBool (is_not_None c); "content" := c ]}),
     w').
Proof.
  intros Hu Hx H. rewrite (main_scrapes _ _ _ _ _ Hu Hx).
  unfold mbind at 1, M_bind at 1. rewrite H.
  unfold report, getitem. rewrite lookup_insert_eq.
  reflexivity.
Qed.

(** [main] never touches the world after the scraper is done. *)
Lemma main_world (args : gmap string pyval) check u x (w : world) :
  args !! "url" = Some u -> args !! "xpath" = Some x ->
  snd (main args check w) = snd (scrape (main_scraper args check u x) w).
Proof.
  intros Hu Hx. rewrite (main_scrapes _ _ _ _ _ Hu Hx).
  unfold mbind at 1, M_bind at 1.
  destruct (scrape (main_scraper args check u x) w) as [[r | kw | kw | e] w'];
    try reflexivity.
  unfold report, getitem, mbind, M_bind.
  destruct (r !! "matched"); reflexivity.
Qed.

End Running.

(** ** Properties of the extraction *)

(** C1: every record that [scrape] returns has [matched] true exactly
    when its [content] is not [None]. *)
Theorem matched_iff_content_present {L : Libs} (self : PageScraper)
    (w w' : world) (r : gmap string pyval) :
  scrape self w = (Ret r, w') ->
  exists (m : bool) (c : pyval),
    r !! "matched" = Some (PBool m) /\
    r !! "content" = Some c /\
    (m = true <-> c <> PNone).
Proof.
  intros H.
  destruct (scrape_returns _ _ _ _ H) as (body & w1 & doc & elem & _ & _ & _ & -> & _).
  exists (is_not_None (_get_element_text elem)), (_get_element_text elem).
  split; [apply lookup_insert_eq |].
  split; [| apply is_not_None_spec].
  rewrite lookup_insert_ne by discriminate. apply lookup_singleton_eq.
Qed.

Lemma matched_iff_content_present_witness :
  let r : gmap string pyval :=
    {[ "matched" := PBool true;
       "content" := PList [PStr "one"; PStr "two 2!"; PStr "three"] ]} in
  @scrape Examples.items_server (Examples.scraper "//li" false) Demo.w0 =
    (Ret r, Examples.queried GET Demo.items_src "//li") /\
  exists (m : bool) (c : pyval),
    r !! "matched" = Some (PBool m) /\
    r !! "content" = Some c /\
    (m = true <-> c <> PNone).
Proof.
  assert (Hrun : @scrape Examples.items_server (Examples.scraper "//li" false) Demo.w0 =
    (Ret {[ "matched" := PBool true;
            "content" := PList [PStr "one"; PStr "two 2!"; PStr "three"] ]},
     Examples.queried GET Demo.items_src "//li")) by (vm_compute; reflexivity).
  split; [exact Hrun |].
  exact (matched_iff_content_present _ _ _ _ Hrun).
Defined.

(** C3: when the path expression selects no node, the empty match is
    normalised to [None], so the record says [matched = false] and
    [content = None]; the content is never an empty list. *)
Theorem empty_match_is_None {L : Libs} (self : PageScraper)
    (w w1 : world) (body : string) (doc : HtmlElement) :
  _get_content self w = (Ret body, w1) ->
  lx_fromstring body = inr doc ->
  lx_xpath doc (self_xpath self) = inr (XList []) ->
  _get_element_text (XList []) = PNone /\
  _get_element_text (XList []) <> PList [] /\
  scrape self w =
    (Ret {[ "matched" := PBool false; "content" := PNone ]},
     after_query body (self_xpath self) w1).
Proof.
  intros Hg Hp Hx.
  split; [reflexivity |]. split; [discriminate |].
  exact (scrape_result _ _ _ _ _ _ Hg Hp Hx).
Qed.

Lemma empty_match_is_None_witness :
  @_get_content Examples.items_server (Examples.scraper "//table" false) Demo.w0 =
    (Ret Demo.items_src, Examples.fetched GET) /\
  Demo.stub_fromstring Demo.items_src = inr Demo.items_doc /\
  Demo.stub_xpath Demo.items_doc (PStr "//table") = inr (XList []) /\
  @scrape Examples.items_server (Examples.scraper "//table" false) Demo.w0 =
    (Ret {[ "matched" := PBool false; "content" := PNone ]},
     Examples.queried GET Demo.items_src "//table").
Proof.
  assert (Hg : @_get_content Examples.items_server (Examples.scraper "//table" false) Demo.w0 =
    (Ret Demo.items_src, Examples.fetched GET)) by (vm_compute; reflexivity).
  assert (Hp : Demo.stub_fromstring Demo.items_src = inr Demo.items_doc)
    by (vm_compute; reflexivity).
  assert (Hx : Demo.stub_xpath Demo.items_doc (PStr "//table") = inr (XList []))
    by (vm_compute; reflexivity).
  split; [exact Hg |]. split; [exact Hp |]. split; [exact Hx |].
  exact (proj2 (proj2 (@empty_match_is_None Examples.items_server
           (Examples.scraper "//table" false) _ _ _ _ Hg Hp Hx))).
Defined.






(** ** Properties of the fetch *)

(** After the fetch, [scrape] only ever adds calls to the parser and to
    the XPath evaluator. *)
Lemma scrape_trace {L : Libs} (self : PageScraper) (w : world) :
  exists rest,
    trace (snd (scrape self w)) = (trace (snd (_get_content self w)) ++ rest)%list /\
    forallb (fun ev => negb (is_fetch ev)) rest = true.
Proof.
  destruct (_get_content self w) as [[body | kw | kw | e] w1] eqn:Hg.
  - destruct (lx_fromstring body) as [e | doc] eqn:Hp.
    + rewrite (scrape_parse_error _ _ _ _ _ Hg Hp).
      exists [EvParse body]. split; reflexivity.
    + destruct (lx_xpath doc (self_xpath self)) as [e | elem] eqn:Hx.
      * rewrite (scrape_query_error _ _ _ _ _ _ Hg Hp Hx).
        exists [EvParse body; EvXPath (self_xpath self)].
        split; [| reflexivity]. cbn [snd after_query trace].
        now rewrite <- app_assoc.
      * rewrite (scrape_result _ _ _ _ _ _ Hg Hp Hx).
        exists [EvParse body; EvXPath (self_xpath self)].
        split; [| reflexivity]. cbn [snd after_query trace].
        now rewrite <- app_assoc.
  - rewrite (scrape_exit _ _ _ _ Hg). exists []. now rewrite app_nil_r.
  - rewrite (scrape_fail _ _ _ _ Hg). exists []. now rewrite app_nil_r.
  - rewrite (scrape_raised _ _ _ _ Hg). exists []. now rewrite app_nil_r.
Qed.

(** C4: a 304 answer ends the run through [exit_json] with
    [changed = false] and neither [content] nor [matched]; the only
    outside call of the run is the request, so the parser and the XPath
    evaluator are never reached. *)
Theorem not_modified_exits_unchanged {L : Libs} (self : PageScraper)
    (w : world) (dt : Z) (resp : option string) (inf : info) :
  self_content self = "" ->
  net (if check_mode (self_module self) then HEAD else GET)
      (self_url self) (self_timeout self) = (dt, resp, inf) ->
  status inf = 304 ->
  exists kw w',
    scrape self w = (ExitJson kw, w') /\
    kw !! "changed" = Some (PBool false) /\
    kw !! "content" = None /\
    kw !! "matched" = None /\
    trace w' =
      (trace w ++ [EvFetch (if check_mode (self_module self) then HEAD else GET)
                           (self_url self) (self_timeout self)])%list.
Proof.
  intros Hc Hnet Hs.
  eexists _, _. split.
  - apply scrape_exit. exact (get_content_304 _ _ _ _ _ Hc Hnet Hs).
  - repeat split; reflexivity.
Qed.

Lemma not_modified_exits_unchanged_witness :
  let L := Demo.server 300000 304 (Some "HTTP Error 304: Not Modified") None in
  let self := Examples.scraper "//li" false in
  self_content self = "" /\
  net GET (self_url self) (self_timeout self) =
    (300000, None, {| status := 304; msg := Some "HTTP Error 304: Not Modified" |}) /\
  exists kw w',
    scrape self Demo.w0 = (ExitJson kw, w') /\
    kw !! "changed" = Some (PBool false) /\
    kw !! "content" = None /\
    kw !! "matched" = None /\
    trace w' = [EvFetch GET Examples.url PNone].
Proof.
  intros L self.
  split; [reflexivity |]. split; [reflexivity |].
  exact (@not_modified_exits_unchanged L self Demo.w0 300000 None
           {| status := 304; msg := Some "HTTP Error 304: Not Modified" |}
           eq_refl eq_refl eq_refl).
Defined.

(** C2, as stated, fails: a 203 answer lies in the 200-299 range, yet
    the run fails with [status_code = 203] and the body is never
    parsed. *)
Lemma status_203_fails :
  200 <= 203 <= 299 /\
  @main (Demo.server 2500000 203 (Some "OK (57 bytes)") (Some Demo.items_src))
        (Demo.task "//li") false Demo.w0 =
    (FailJson {[ "url" := Examples.url;
                 "msg" := PStr "Request failed";
                 "response" := PStr "OK (57 bytes)";
                 "status_code" := PInt 203;
                 "elapsed" := PInt 2 ]},
     Examples.fetched GET).
Proof. split; [lia | vm_compute; reflexivity]. Qed.

(** C2, amended: every status other than 304, -1 and 200 ends the run
    through [fail_json] carrying that status code, with no call to the
    parser; status 200, and only 200, hands the response body to the
    parser. *)
Theorem status_classification {L : Libs} (self : PageScraper)
    (w : world) (dt : Z) (resp : option string) (inf : info) :
  self_content self = "" ->
  net (if check_mode (self_module self) then HEAD else GET)
      (self_url self) (self_timeout self) = (dt, resp, inf) ->
  (status inf <> 304 -> status inf <> -1 -> status inf <> 200 ->
   forall m, msg inf = Some m ->
   exists kw,
     scrape self w = (FailJson kw, after_fetch self dt w) /\
     kw !! "status_code" = Some (PInt (status inf)) /\
     kw !! "response" = Some (PStr m) /\
     trace (after_fetch self dt w) =
       (trace w ++ [EvFetch (if check_mode (self_module self) then HEAD else GET)
                            (self_url self) (self_timeout self)])%list) /\
  (status inf = 200 ->
   forall body, resp = Some body ->
   _get_content self w = (Ret body, after_fetch self dt w) /\
   exists rest,
     trace (snd (scrape self w)) =
       (trace (after_fetch self dt w) ++ EvParse body :: rest)%list).
Proof.
  intros Hc Hnet. split.
  - intros H304 H1 H200 m Hm. eexists. split.
    + apply scrape_fail.
      exact (get_content_bad_status _ _ _ _ _ _ Hc Hnet H304 H1 H200 Hm).
    + repeat split; reflexivity.
  - intros Hs body ->.
    pose proof (get_content_200 _ w _ _ _ Hc Hnet Hs) as Hg.
    split; [exact Hg |].
    destruct (lx_fromstring body) as [e | doc] eqn:Hp.
    + rewrite (scrape_parse_error _ _ _ _ _ Hg Hp). exists []. reflexivity.
    + destruct (lx_xpath doc (self_xpath self)) as [e | elem] eqn:Hx.
      * rewrite (scrape_query_error _ _ _ _ _ _ Hg Hp Hx).
        exists [EvXPath (self_xpath self)].
        cbn [snd after_query trace]. now rewrite <- app_assoc.
      * rewrite (scrape_result _ _ _ _ _ _ Hg Hp Hx).
        exists [EvXPath (self_xpath self)].
        cbn [snd after_query trace]. now rewrite <- app_assoc.
Qed.

Lemma status_classification_witness :
  let L := Demo.server 2500000 500 (Some "HTTP Error 500: Internal Server Error") None in
  let self := Examples.scraper "//li" false in
  self_content self = "" /\
  net GET (self_url self) (self_timeout self) =
    (2500000, None,
     {| status := 500; msg := Some "HTTP Error 500: Internal Server Error" |}) /\
  exists kw,
    scrape self Demo.w0 = (FailJson kw, Examples.fetched GET) /\
    kw !! "status_code" = Some (PInt 500) /\
    kw !! "response" = Some (PStr "HTTP Error 500: Internal Server Error") /\
    trace (Examples.fetched GET) = [EvFetch GET Examples.url PNone].
Proof.
  intros L self.
  split; [reflexivity |]. split; [reflexivity |].
  refine (proj1 (@status_classification L self Demo.w0 2500000 None
                   {| status := 500;
                      msg := Some "HTTP Error 500: Internal Server Error" |}
                   eq_refl eq_refl) _ _ _ _ eq_refl);
    cbn [status]; lia.
Defined.

(** C5, as stated, fails: in check mode a 200 answer to the HEAD
    request is handed to the parser like any other body. *)
Lemma check_mode_reaches_parser :
  @main Examples.items_server (Demo.task "//li") true Demo.w0 =
    (Raised (ParserError "Document is empty"),
     {| now := 1572900002500000;
        trace := [EvFetch HEAD Examples.url PNone; EvParse ""] |}).
Proof. vm_compute; reflexivity. Qed.

(** C5, amended: the one request of a run is a HEAD request when the
    module is in check mode and a GET request otherwise; whatever
    follows it on the trace is no request. *)
Theorem check_mode_requests_HEAD {L : Libs} (self : PageScraper) (w : world) :
  self_content self = "" ->
  exists rest,
    trace (snd (scrape self w)) =
      (trace w ++
       EvFetch (if check_mode (self_module self) then HEAD else GET)
               (self_url self) (self_timeout self) :: rest)%list /\
    forallb (fun ev => negb (is_fetch ev)) rest = true.
Proof.
  intros Hc. destruct (scrape_trace self w) as (rest & Ht & Hrest).
  exists rest. split; [| exact Hrest].
  rewrite Ht, (get_content_world _ _ Hc). cbn [after_fetch trace].
  now rewrite <- app_assoc.
Qed.

Lemma check_mode_requests_HEAD_witness :
  let self := Examples.scraper "//li" true in
  self_content self = "" /\
  exists rest,
    trace (snd (@scrape Examples.items_server self Demo.w0)) =
      EvFetch HEAD Examples.url PNone :: rest /\
    forallb (fun ev => negb (is_fetch ev)) rest = true.
Proof.
  intros self. split; [reflexivity |].
  exact (@check_mode_requests_HEAD Examples.items_server self Demo.w0 eq_refl).
Defined.

(** ** The timeout *)

(** [__init__] falls back to 10 when [params] has no [timeout] key. *)
Lemma init_timeout_default {L : Libs} (module : AnsibleModule) (u x : pyval) (w : world) :
  params module !! "url" = Some u ->
  params module !! "xpath" = Some x ->
  params module !! "timeout" = None ->
  exists self, __init__ module w = (Ret self, w) /\ self_timeout self = PInt 10.
Proof.
  intros Hu Hx Ht. unfold __init__, getitem, get, mbind, M_bind, mret, M_ret.
  rewrite Hu, Hx, Ht. eexists. split; reflexivity.
Qed.




(** ** Elapsed time *)

(** C7, as stated, fails: a successful run took two seconds, and its
    output carries [matched], [content] and [changed] but no elapsed
    time. *)
Lemma success_output_lacks_elapsed :
  timedelta_seconds 2500000 = 2 /\
  exists kw,
    @main Examples.items_server (Demo.task "//li") false Demo.w0 =
      (ExitJson kw, Examples.queried GET Demo.items_src "//li") /\
    kw = {[ "matched" := PBool true;
            "content" := PList [PStr "one"; PStr "two 2!"; PStr "three"];
            "changed" := PBool true ]} /\
    kw !! "elapsed" = None.
Proof.
  split; [reflexivity |]. eexists. split; [vm_compute; reflexivity |].
  split; vm_compute; reflexivity.
Qed.

(** C7, amended: the seconds of the elapsed time (the whole seconds
    elapsed, for a request that took less than a day) are part of the
    output of a 304 answer, of a transport failure and of a failing
    status; the body returned on status 200 is all that leaves the
    fetch, and the record [scrape] returns has no elapsed time. *)
Theorem elapsed_on_early_exits {L : Libs} (self : PageScraper)
    (w : world) (dt : Z) (resp : option string) (inf : info) :
  self_content self = "" ->
  net (if check_mode (self_module self) then HEAD else GET)
      (self_url self) (self_timeout self) = (dt, resp, inf) ->
  (status inf = 304 ->
   exists kw, scrape self w = (ExitJson kw, after_fetch self dt w) /\
              kw !! "elapsed" = Some (PInt (timedelta_seconds dt))) /\
  (status inf = -1 -> forall m, msg inf = Some m ->
   exists kw, scrape self w = (FailJson kw, after_fetch self dt w) /\
              kw !! "elapsed" = Some (PInt (timedelta_seconds dt)) /\
              kw !! "status_code" = None) /\
  (status inf <> 304 -> status inf <> -1 -> status inf <> 200 ->
   forall m, msg inf = Some m ->
   exists kw, scrape self w = (FailJson kw, after_fetch self dt w) /\
              kw !! "elapsed" = Some (PInt (timedelta_seconds dt))) /\
  (forall r w', scrape self w = (Ret r, w') -> r !! "elapsed" = None) /\
  (0 <= dt < 86400000000 -> timedelta_seconds dt = dt `div` 1000000).
Proof.
  intros Hc Hnet. repeat apply conj.
  - intros Hs. eexists. split.
    + apply scrape_exit. exact (get_content_304 _ _ _ _ _ Hc Hnet Hs).
    + reflexivity.
  - intros Hs m Hm. eexists. split.
    + apply scrape_fail. exact (get_content_no_response _ _ _ _ _ _ Hc Hnet Hs Hm).
    + split; reflexivity.
  - intros H304 H1 H200 m Hm. eexists. split.
    + apply scrape_fail.
      exact (get_content_bad_status _ _ _ _ _ _ Hc Hnet H304 H1 H200 Hm).
    + reflexivity.
  - intros r w' Hr.
    destruct (scrape_returns _ _ _ _ Hr) as (body & w1 & doc & elem & _ & _ & _ & -> & _).
    reflexivity.
  - apply timedelta_seconds_small.
Qed.

Lemma elapsed_on_early_exits_witness :
  let L := Demo.server 7300000 (-1) (Some "Request failed: timed out") None in
  let self := Examples.scraper "//li" false in
  self_content self = "" /\
  net GET (self_url self) (self_timeout self) =
    (7300000, None, {| status := -1; msg := Some "Request failed: timed out" |}) /\
  exists kw,
    scrape self Demo.w0 = (FailJson kw, after_fetch self 7300000 Demo.w0) /\
    kw !! "elapsed" = Some (PInt 7) /\
    kw !! "status_code" = None.
Proof.
  intros L self.
  split; [reflexivity |]. split; [reflexivity |].
  exact (proj1 (proj2 (@elapsed_on_early_exits L self Demo.w0 7300000 None
                         {| status := -1; msg := Some "Request failed: timed out" |}
                         eq_refl eq_refl))
           eq_refl "Request failed: timed out" eq_refl).
Defined.

(** ** Errors of the HTML library *)

(** C8: when the XPath evaluator rejects the expression, on whatever
    document the body parsed to, the exception leaves [scrape] and
    [main] uncaught: the run ends with it, and with no output at all,
    which sets it apart from the no-match record. *)
Theorem query_error_propagates {L : Libs} (args : gmap string pyval)
    (check : bool) (u x : pyval) (w w1 : world)
    (body : string) (doc : HtmlElement) (e : exn) :
  args !! "url" = Some u ->
  args !! "xpath" = Some x ->
  _get_content (main_scraper args check u x) w = (Ret body, w1) ->
  lx_fromstring body = inr doc ->
  lx_xpath doc x = inl e ->
  scrape (main_scraper args check u x) w = (Raised e, after_query body x w1) /\
  main args check w = (Raised e, after_query body x w1) /\
  (forall kw w', main args check w <> (ExitJson kw, w')) /\
  (forall kw w', main args check w <> (FailJson kw, w')).
Proof.
  intros Hu Hx Hg Hp Hq.
  pose proof (scrape_query_error (main_scraper args check u x) _ _ _ _ _ Hg Hp Hq) as Hs.
  cbn [self_xpath main_scraper] in Hs.
  pose proof (main_raised _ _ _ _ _ _ _ Hu Hx Hs) as Hmain.
  split; [exact Hs |]. split; [exact Hmain |].
  split; intros kw w'; rewrite Hmain; discriminate.
Qed.

Lemma query_error_propagates_witness :
  let L := Examples.items_server in
  Demo.task "//[" !! "url" = Some Examples.url /\
  Demo.task "//[" !! "xpath" = Some (PStr "//[") /\
  _get_content (Examples.scraper "//[" false) Demo.w0 =
    (Ret Demo.items_src, Examples.fetched GET) /\
  lx_fromstring Demo.items_src = inr Demo.items_doc /\
  lx_xpath Demo.items_doc (PStr "//[") = inl (XPathEvalError "Invalid expression") /\
  main (Demo.task "//[") false Demo.w0 =
    (Raised (XPathEvalError "Invalid expression"),
     after_query Demo.items_src (PStr "//[") (Examples.fetched GET)).
Proof.
  intros L.
  assert (Hu : Demo.task "//[" !! "url" = Some Examples.url) by reflexivity.
  assert (Hx : Demo.task "//[" !! "xpath" = Some (PStr "//[")) by reflexivity.
  assert (Hg : _get_content (Examples.scraper "//[" false) Demo.w0 =
                 (Ret Demo.items_src, Examples.fetched GET))
    by (vm_compute; reflexivity).
  assert (Hp : lx_fromstring Demo.items_src = inr Demo.items_doc)
    by (vm_compute; reflexivity).
  assert (Hq : lx_xpath Demo.items_doc (PStr "//[") =
                 inl (XPathEvalError "Invalid expression"))
    by (vm_compute; reflexivity).
  split; [exact Hu |]. split; [exact Hx |]. split; [exact Hg |].
  split; [exact Hp |]. split; [exact Hq |].
  exact (proj1 (proj2 (@query_error_propagates L (Demo.task "//[") false
                         _ _ Demo.w0 _ _ _ _ Hu Hx Hg Hp Hq))).
Defined.

(** When the fetch has returned an empty body and the parser raises
    on the empty document, the exception leaves [scrape] and [main]
    uncaught. *)
Lemma empty_body_aborts {L : Libs} (args : gmap string pyval)
    (check : bool) (u x : pyval) (w w1 : world) (e : exn) :
  args !! "url" = Some u ->
  args !! "xpath" = Some x ->
  _get_content (main_scraper args check u x) w = (Ret "", w1) ->
  lx_fromstring "" = inl e ->
  scrape (main_scraper args check u x) w = (Raised e, after_parse "" w1) /\
  main args check w = (Raised e, after_parse "" w1) /\
  (forall r w', scrape (main_scraper args check u x) w <> (Ret r, w')) /\
  (forall kw w', main args check w <> (ExitJson kw, w')) /\
  (forall kw w', main args check w <> (FailJson kw, w')).
Proof.
  intros Hu Hx Hg Hp.
  pose proof (scrape_parse_error (main_scraper args check u x) _ _ _ _ Hg Hp) as Hs.
  pose proof (main_raised _ _ _ _ _ _ _ Hu Hx Hs) as Hmain.
  split; [exact Hs |]. split; [exact Hmain |].
  split; [intros r w'; rewrite Hs; discriminate |].
  split; intros kw w'; rewrite Hmain; discriminate.
Qed.

(** C10, as stated, fails: an empty body that comes with status 204,
    a status of the 2xx range, is never parsed; the run ends in
    [fail_json] with that status code. *)
Lemma empty_204_body_is_not_parsed :
  200 <= 204 <= 299 /\
  @main (Demo.server 300000 204 (Some "OK (0 bytes)") (Some ""))
        (Demo.task "//li") false Demo.w0 =
    (FailJson {[ "url" := Examples.url;
                 "msg" := PStr "Request failed";
                 "response" := PStr "OK (0 bytes)";
                 "status_code" := PInt 204;
                 "elapsed" := PInt 0 ]},
     {| now := 1572900000300000; trace := [EvFetch GET Examples.url PNone] |}).
Proof. split; [lia | vm_compute; reflexivity]. Qed.

(** C10, amended: when the answer to the request has an empty body
    and the parser raises on the empty document, then on status 200
    (a HEAD answer in check mode, or an empty answer to GET) the
    exception leaves [scrape] and [main] uncaught and the run prints
    neither a record nor anything else; on any other status from 201
    to 299 the body is never parsed and the run ends in [fail_json]
    with that status code. *)
Theorem empty_body_aborts_on_200 {L : Libs} (args : gmap string pyval)
    (check : bool) (u x : pyval) (w : world) (dt : Z) (inf : info) (e : exn) :
  args !! "url" = Some u ->
  args !! "xpath" = Some x ->
  net (if check then HEAD else GET) u
      (self_timeout (main_scraper args check u x)) = (dt, Some "", inf) ->
  lx_fromstring "" = inl e ->
  (status inf = 200 ->
   main args check w =
     (Raised e, after_parse "" (after_fetch (main_scraper args check u x) dt w)) /\
   (forall r w', scrape (main_scraper args check u x) w <> (Ret r, w')) /\
   (forall kw w', main args check w <> (ExitJson kw, w')) /\
   (forall kw w', main args check w <> (FailJson kw, w'))) /\
  (200 < status inf <= 299 ->
   forall m, msg inf = Some m ->
   exists kw,
     main args check w =
       (FailJson kw, after_fetch (main_scraper args check u x) dt w) /\
     kw !! "status_code" = Some (PInt (status inf)) /\
     trace (after_fetch (main_scraper args check u x) dt w) =
       (trace w ++ [EvFetch (if check then HEAD else GET) u
                            (self_timeout (main_scraper args check u x))])%list).
Proof.
  intros Hu Hx Hnet Hp. split.
  - intros Hs.
    pose proof (get_content_200 (main_scraper args check u x) w _ _ _ eq_refl Hnet Hs)
      as Hg.
    destruct (empty_body_aborts _ _ _ _ _ _ _ Hu Hx Hg Hp) as (_ & Hm & Hr & He & Hf).
    auto.
  - intros Hs m Hm. eexists. split.
    + apply (main_fail _ _ _ _ _ _ _ Hu Hx). apply scrape_fail.
      exact (get_content_bad_status (main_scraper args check u x) w dt (Some "") inf m
               eq_refl Hnet ltac:(lia) ltac:(lia) ltac:(lia) Hm).
    + split; reflexivity.
Qed.

Lemma empty_body_aborts_on_200_witness :
  let L := Examples.items_server in
  let args := Demo.task "//li" in
  let self := main_scraper args true Examples.url (PStr "//li") in
  args !! "url" = Some Examples.url /\
  args !! "xpath" = Some (PStr "//li") /\
  net HEAD Examples.url (self_timeout self) =
    (2500000, Some "", {| status := 200; msg := Some "OK (57 bytes)" |}) /\
  lx_fromstring "" = inl (ParserError "Document is empty") /\
  main args true Demo.w0 =
    (Raised (ParserError "Document is empty"),
     after_parse "" (after_fetch self 2500000 Demo.w0)).
Proof.
  intros L args self.
  assert (Hu : args !! "url" = Some Examples.url) by reflexivity.
  assert (Hx : args !! "xpath" = Some (PStr "//li")) by reflexivity.
  assert (Hnet : net HEAD Examples.url (self_timeout self) =
                   (2500000, Some "", {| status := 200; msg := Some "OK (57 bytes)" |}))
    by reflexivity.
  assert (Hp : lx_fromstring "" = inl (ParserError "Document is empty"))
    by reflexivity.
  split; [exact Hu |]. split; [exact Hx |]. split; [exact Hnet |]. split; [exact Hp |].
  exact (proj1 (proj1 (@empty_body_aborts_on_200 L args true _ _ Demo.w0 _ _ _
                         Hu Hx Hnet Hp) eq_refl)).
Defined.

(** ** Every way the fetch can end *)

Section FetchOutcomes.
Context {L : Libs}.

Lemma get_content_no_response_no_msg (self : PageScraper) (w : world) dt resp inf :
  self_content self = "" ->
  net (if check_mode (self_module self) then HEAD else GET)
      (self_url self) (self_timeout self) = (dt, resp, inf) ->
  status inf = -1 ->
  msg inf = None ->
  _get_content self w = (Raised (KeyError "msg"), after_fetch self dt w).
Proof.
  intros Hc Hnet Hs Hm. run_fetch Hc Hnet.
  rewrite bool_decide_eq_false_2 by lia. cbn [mret M_ret].
  rewrite bool_decide_eq_true_2 by exact Hs. rewrite Hm. reflexivity.
Qed.

Lemma get_content_bad_status_no_msg (self : PageScraper) (w : world) dt resp inf :
  self_content self = "" ->
  net (if check_mode (self_module self) then HEAD else GET)
      (self_url self) (self_timeout self) = (dt, resp, inf) ->
  status inf <> 304 -> status inf <> -1 -> status inf <> 200 ->
  msg inf = None ->
  _get_content self w = (Raised (KeyError "msg"), after_fetch self dt w).
Proof.
  intros Hc Hnet H304 H1 H200 Hm. run_fetch Hc Hnet.
  rewrite bool_decide_eq_false_2 by exact H304. cbn [mret M_ret].
  rewrite bool_decide_eq_false_2 by exact H1. cbn [mret M_ret].
  rewrite bool_decide_eq_true_2 by exact H200. rewrite Hm. reflexivity.
Qed.

Lemma get_content_200_no_response (self : PageScraper) (w : world) dt inf :
  self_content self = "" ->
  net (if check_mode (self_module self) then HEAD else GET)
      (self_url self) (self_timeout self) = (dt, None, inf) ->
  status inf = 200 ->
  _get_content self w =
    (Raised (AttributeError "'NoneType' object has no attribute 'read'"),
     after_fetch self dt w).
Proof.
  intros Hc Hnet Hs. run_fetch Hc Hnet.
  rewrite bool_decide_eq_false_2 by lia. cbn [mret M_ret].
  rewrite bool_decide_eq_false_2 by lia. cbn [mret M_ret].
  rewrite bool_decide_eq_false_2 by (intros H; apply H; exact Hs).
  reflexivity.
Qed.

(** The fetch of a scraper that holds no content ends in exactly one
    of seven ways, chosen by the status, by whether [info] has a [msg]
    and by whether there is a response object. *)
Lemma get_content_inv (self : PageScraper) (w w' : world) dt resp inf
    (o : outcome string) :
  self_content self = "" ->
  net (if check_mode (self_module self) then HEAD else GET)
      (self_url self) (self_timeout self) = (dt, resp, inf) ->
  _get_content self w = (o, w') ->
  w' = after_fetch self dt w /\
  ((status inf = 304 /\
    o = ExitJson {[ "url" := self_url self;
                    "changed" := PBool false;
                    "msg" := PStr (default "" (msg inf));
                    "elapsed" := PInt (timedelta_seconds dt) ]}) \/
   (status inf = -1 /\ exists m, msg inf = Some m /\
    o = FailJson {[ "url" := self_url self;
                    "msg" := PStr m;
                    "elapsed" := PInt (timedelta_seconds dt) ]}) \/
   (status inf <> 304 /\ status inf <> -1 /\ status inf <> 200 /\
    exists m, msg inf = Some m /\
    o = FailJson {[ "url" := self_url self;
                    "msg" := PStr "Request failed";
                    "response" := PStr m;
                    "status_code" := PInt (status inf);
                    "elapsed" := PInt (timedelta_seconds dt) ]}) \/
   (status inf <> 304 /\ status inf <> 200 /\ msg inf = None /\
    o = Raised (KeyError "msg")) \/
   (status inf = 200 /\ exists body, resp = Some body /\ o = Ret body) \/
   (status inf = 200 /\ resp = None /\
    o = Raised (AttributeError "'NoneType' object has no attribute 'read'"))).
Proof.
  intros Hc Hnet H.
  destruct (decide (status inf = 304)) as [H304 | H304].
  { rewrite (get_content_304 _ _ _ _ _ Hc Hnet H304) in H.
    injection H as <- <-. split; [reflexivity |]. left. auto. }
  destruct (decide (status inf = -1)) as [H1 | H1].
  { destruct (msg inf) as [m |] eqn:Hm.
    - rewrite (get_content_no_response _ _ _ _ _ _ Hc Hnet H1 Hm) in H.
      injection H as <- <-. split; [reflexivity |]. right; left. eauto.
    - rewrite (get_content_no_response_no_msg _ _ _ _ _ Hc Hnet H1 Hm) in H.
      injection H as <- <-. split; [reflexivity |].
      do 3 right; left. repeat split; auto; lia. }
  destruct (decide (status inf = 200)) as [H200 | H200].
  { destruct resp as [body |].
    - rewrite (get_content_200 _ _ _ _ _ Hc Hnet H200) in H.
      injection H as <- <-. split; [reflexivity |]. do 4 right; left. eauto.
    - rewrite (get_content_200_no_response _ _ _ _ Hc Hnet H200) in H.
      injection H as <- <-. split; [reflexivity |]. do 5 right. auto. }
  destruct (msg inf) as [m |] eqn:Hm.
  - rewrite (get_content_bad_status _ _ _ _ _ _ Hc Hnet H304 H1 H200 Hm) in H.
    injection H as <- <-. split; [reflexivity |]. do 2 right; left. eauto 6.
  - rewrite (get_content_bad_status_no_msg _ _ _ _ _ Hc Hnet H304 H1 H200 Hm) in H.
    injection H as <- <-. split; [reflexivity |]. do 3 right; left. auto.
Qed.

End FetchOutcomes.

(** [scrape] itself never calls [exit_json] or [fail_json]: such an end
    comes from the fetch. *)
Lemma scrape_exit_inv {L : Libs} (self : PageScraper) (w w' : world) kw :
  scrape self w = (ExitJson kw, w') -> _get_content self w = (ExitJson kw, w').
Proof.
  intros H.
  destruct (_get_content self w) as [[body | kw1 | kw1 | e] w1] eqn:Hg.
  - destruct (lx_fromstring body) as [e | doc] eqn:Hp.
    + rewrite (scrape_parse_error _ _ _ _ _ Hg Hp) in H. discriminate.
    + destruct (lx_xpath doc (self_xpath self)) as [e | elem] eqn:Hx.
      * rewrite (scrape_query_error _ _ _ _ _ _ Hg Hp Hx) in H. discriminate.
      * rewrite (scrape_result _ _ _ _ _ _ Hg Hp Hx) in H. discriminate.
  - rewrite (scrape_exit _ _ _ _ Hg) in H. injection H as <- <-. reflexivity.
  - rewrite (scrape_fail _ _ _ _ Hg) in H. discriminate.
  - rewrite (scrape_raised _ _ _ _ Hg) in H. discriminate.
Qed.

Lemma scrape_fail_inv {L : Libs} (self : PageScraper) (w w' : world) kw :
  scrape self w = (FailJson kw, w') -> _get_content self w = (FailJson kw, w').
Proof.
  intros H.
  destruct (_get_content self w) as [[body | kw1 | kw1 | e] w1] eqn:Hg.
  - destruct (lx_fromstring body) as [e | doc] eqn:Hp.
    + rewrite (scrape_parse_error _ _ _ _ _ Hg Hp) in H. discriminate.
    + destruct (lx_xpath doc (self_xpath self)) as [e | elem] eqn:Hx.
      * rewrite (scrape_query_error _ _ _ _ _ _ Hg Hp Hx) in H. discriminate.
      * rewrite (scrape_result _ _ _ _ _ _ Hg Hp Hx) in H. discriminate.
  - rewrite (scrape_exit _ _ _ _ Hg) in H. discriminate.
  - rewrite (scrape_fail _ _ _ _ Hg) in H. injection H as <- <-. reflexivity.
  - rewrite (scrape_raised _ _ _ _ Hg) in H. discriminate.
Qed.

(** X1: a scraper that holds no content gets a body out of the fetch
    only when the status is 200 and there is a response object; the
    body is what that object reads. *)
Theorem body_only_for_200 {L : Libs} (self : PageScraper) (w w' : world)
    (dt : Z) (resp : option string) (inf : info) (body : string) :
  self_content self = "" ->
  net (if check_mode (self_module self) then HEAD else GET)
      (self_url self) (self_timeout self) = (dt, resp, inf) ->
  _get_content self w = (Ret body, w') ->
  status inf = 200 /\ resp = Some body /\ w' = after_fetch self dt w.
Proof.
  intros Hc Hnet H.
  destruct (get_content_inv _ _ _ _ _ _ _ Hc Hnet H) as [Hw Hcases].
  destruct Hcases as [[_ Ho] | [(_ & m & _ & Ho) | [(_ & _ & _ & m & _ & Ho) |
                     [(_ & _ & _ & Ho) | [(Hs & b & Hr & Ho) | (_ & _ & Ho)]]]]];
    try discriminate.
  injection Ho as ->. auto.
Qed.

Lemma body_only_for_200_witness :
  let L := Examples.items_server in
  let self := Examples.scraper "//li" false in
  self_content self = "" /\
  net GET (self_url self) (self_timeout self) =
    (2500000, Some Demo.items_src, {| status := 200; msg := Some "OK (57 bytes)" |}) /\
  _get_content self Demo.w0 = (Ret Demo.items_src, Examples.fetched GET) /\
  status {| status := 200; msg := Some "OK (57 bytes)" |} = 200.
Proof.
  intros L self.
  assert (Hg : _get_content self Demo.w0 = (Ret Demo.items_src, Examples.fetched GET))
    by (vm_compute; reflexivity).
  split; [reflexivity |]. split; [reflexivity |]. split; [exact Hg |].
  exact (proj1 (@body_only_for_200 L self Demo.w0 _ 2500000 _
                  {| status := 200; msg := Some "OK (57 bytes)" |} _
                  eq_refl eq_refl Hg)).
Defined.

(** X2: whenever a scrape ends through [fail_json], the failure was
    decided by the fetch alone: the status is neither 200 nor 304, the
    parser was never called, and the output carries the url, a message
    and the elapsed seconds, with a status code exactly when the status
    is not -1. *)
Theorem failure_comes_from_fetch {L : Libs} (self : PageScraper) (w w' : world)
    (dt : Z) (resp : option string) (inf : info) (kw : gmap string pyval) :
  self_content self = "" ->
  net (if check_mode (self_module self) then HEAD else GET)
      (self_url self) (self_timeout self) = (dt, resp, inf) ->
  scrape self w = (FailJson kw, w') ->
  w' = after_fetch self dt w /\
  status inf <> 200 /\ status inf <> 304 /\
  kw !! "url" = Some (self_url self) /\
  kw !! "elapsed" = Some (PInt (timedelta_seconds dt)) /\
  (exists m, kw !! "msg" = Some (PStr m)) /\
  kw !! "status_code" =
    (if bool_decide (status inf = -1) then None else Some (PInt (status inf))) /\
  kw !! "matched" = None /\ kw !! "content" = None.
Proof.
  intros Hc Hnet H. apply scrape_fail_inv in H.
  destruct (get_content_inv _ _ _ _ _ _ _ Hc Hnet H) as [Hw Hcases].
  split; [exact Hw |].
  destruct Hcases as [[_ Ho] | [(Hs & m & _ & Ho) | [(H304 & H1 & H200 & m & _ & Ho) |
                     [(_ & _ & _ & Ho) | [(_ & b & _ & Ho) | (_ & _ & Ho)]]]]];
    try discriminate; injection Ho as ->.
  - rewrite bool_decide_eq_true_2 by exact Hs.
    repeat split; try reflexivity; try lia. exists m. reflexivity.
  - rewrite bool_decide_eq_false_2 by exact H1.
    repeat split; try reflexivity; try assumption.
    exists "Request failed". reflexivity.
Qed.

Lemma failure_comes_from_fetch_witness :
  let L := Demo.server 2500000 404 (Some "HTTP Error 404: Not Found") None in
  let self := Examples.scraper "//li" false in
  let kw : gmap string pyval :=
    {[ "url" := Examples.url;
       "msg" := PStr "Request failed";
       "response" := PStr "HTTP Error 404: Not Found";
       "status_code" := PInt 404;
       "elapsed" := PInt 2 ]} in
  self_content self = "" /\
  net GET (self_url self) (self_timeout self) =
    (2500000, None, {| status := 404; msg := Some "HTTP Error 404: Not Found" |}) /\
  scrape self Demo.w0 = (FailJson kw, Examples.fetched GET) /\
  kw !! "elapsed" = Some (PInt (timedelta_seconds 2500000)).
Proof.
  intros L self kw.
  assert (Hs : scrape self Demo.w0 = (FailJson kw, Examples.fetched GET))
    by (vm_compute; reflexivity).
  split; [reflexivity |]. split; [reflexivity |]. split; [exact Hs |].
  exact (proj1 (proj2 (proj2 (proj2 (proj2
           (@failure_comes_from_fetch L self Demo.w0 _ 2500000 None
              {| status := 404; msg := Some "HTTP Error 404: Not Found" |} kw
              eq_refl eq_refl Hs)))))).
Defined.

(** X3: whenever a scrape ends through [exit_json], the status was
    304: the output is the unchanged report, and the parser was never
    called. *)
Theorem exit_only_for_304 {L : Libs} (self : PageScraper) (w w' : world)
    (dt : Z) (resp : option string) (inf : info) (kw : gmap string pyval) :
  self_content self = "" ->
  net (if check_mode (self_module self) then HEAD else GET)
      (self_url self) (self_timeout self) = (dt, resp, inf) ->
  scrape self w = (ExitJson kw, w') ->
  status inf = 304 /\
  w' = after_fetch self dt w /\
  kw = {[ "url" := self_url self;
          "changed" := PBool false;
          "msg" := PStr (default "" (msg inf));
          "elapsed" := PInt (timedelta_seconds dt) ]}.
Proof.
  intros Hc Hnet H. apply scrape_exit_inv in H.
  destruct (get_content_inv _ _ _ _ _ _ _ Hc Hnet H) as [Hw Hcases].
  destruct Hcases as [[Hs Ho] | [(_ & m & _ & Ho) | [(_ & _ & _ & m & _ & Ho) |
                     [(_ & _ & _ & Ho) | [(_ & b & _ & Ho) | (_ & _ & Ho)]]]]];
    try discriminate.
  injection Ho as ->. auto.
Qed.

Lemma exit_only_for_304_witness :
  let L := Demo.server 300000 304 None None in
  let self := Examples.scraper "//li" true in
  let kw : gmap string pyval :=
    {[ "url" := Examples.url; "changed" := PBool false;
       "msg" := PStr ""; "elapsed" := PInt 0 ]} in
  self_content self = "" /\
  net HEAD (self_url self) (self_timeout self) =
    (300000, None, {| status := 304; msg := None |}) /\
  scrape self Demo.w0 = (ExitJson kw, after_fetch self 300000 Demo.w0) /\
  status {| status := 304; msg := None |} = 304.
Proof.
  intros L self kw.
  assert (Hs : scrape self Demo.w0 = (ExitJson kw, after_fetch self 300000 Demo.w0))
    by (vm_compute; reflexivity).
  split; [reflexivity |]. split; [reflexivity |]. split; [exact Hs |].
  exact (proj1 (@exit_only_for_304 L self Demo.w0 _ 300000 None
                  {| status := 304; msg := None |} kw eq_refl eq_refl Hs)).
Defined.

(** X4: [info] without a [msg] is tolerated only on a 304 answer,
    which is reported with an empty message; on every failing status
    the lookup of the message raises [KeyError] and no failure report
    is printed. *)
Theorem missing_msg_only_tolerated_on_304 {L : Libs} (self : PageScraper)
    (w : world) (dt : Z) (resp : option string) (inf : info) :
  self_content self = "" ->
  net (if check_mode (self_module self) then HEAD else GET)
      (self_url self) (self_timeout self) = (dt, resp, inf) ->
  msg inf = None ->
  (status inf = 304 ->
   exists kw, scrape self w = (ExitJson kw, after_fetch self dt w) /\
              kw !! "msg" = Some (PStr "")) /\
  (status inf <> 304 -> status inf <> 200 ->
   scrape self w = (Raised (KeyError "msg"), after_fetch self dt w)).
Proof.
  intros Hc Hnet Hm. split.
  - intros Hs. eexists. split.
    + apply scrape_exit. exact (get_content_304 _ _ _ _ _ Hc Hnet Hs).
    + rewrite Hm. reflexivity.
  - intros H304 H200. apply scrape_raised.
    destruct (decide (status inf = -1)) as [H1 | H1].
    + exact (get_content_no_response_no_msg _ _ _ _ _ Hc Hnet H1 Hm).
    + exact (get_content_bad_status_no_msg _ _ _ _ _ Hc Hnet H304 H1 H200 Hm).
Qed.

Lemma missing_msg_only_tolerated_on_304_witness :
  let L := Demo.server 300000 503 None None in
  let self := Examples.scraper "//li" false in
  self_content self = "" /\
  net GET (self_url self) (self_timeout self) =
    (300000, None, {| status := 503; msg := None |}) /\
  msg {| status := 503; msg := None |} = None /\
  scrape self Demo.w0 = (Raised (KeyError "msg"), after_fetch self 300000 Demo.w0).
Proof.
  intros L self.
  split; [reflexivity |]. split; [reflexivity |]. split; [reflexivity |].
  refine (proj2 (@missing_msg_only_tolerated_on_304 L self Demo.w0 300000 None
                   {| status := 503; msg := None |} eq_refl eq_refl eq_refl) _ _);
    cbn [status]; lia.
Defined.

(** X6: the elapsed time in any report of the fetch is a number of
    seconds from 0 to 86399: whole days of the elapsed time are
    dropped, and a clock that was set back still gives a value in that
    range. *)
Theorem reported_elapsed_below_a_day {L : Libs} (self : PageScraper)
    (w w' : world) (kw : gmap string pyval) :
  self_content self = "" ->
  _get_content self w = (ExitJson kw, w') \/ _get_content self w = (FailJson kw, w') ->
  exists n, kw !! "elapsed" = Some (PInt n) /\ 0 <= n < 86400 /\
            n = timedelta_seconds (now w' - now w).
Proof.
  intros Hc H.
  destruct (net (if check_mode (self_module self) then HEAD else GET)
                (self_url self) (self_timeout self)) as [[dt resp] inf] eqn:Hnet.
  exists (timedelta_seconds dt).
  assert (Hgoal : forall o, _get_content self w = (o, w') ->
            (o = ExitJson kw \/ o = FailJson kw) ->
            kw !! "elapsed" = Some (PInt (timedelta_seconds dt)) /\
            now w' - now w = dt).
  { intros o Ho Hk.
    destruct (get_content_inv _ _ _ _ _ _ _ Hc Hnet Ho) as [-> Hcases].
    cbn [after_fetch now]. rewrite elapsed_of_fetch. split; [| reflexivity].
    destruct Hcases as [[_ ->] | [(_ & m & _ & ->) | [(_ & _ & _ & m & _ & ->) |
                       [(_ & _ & _ & ->) | [(_ & b & _ & ->) | (_ & _ & ->)]]]]];
      destruct Hk as [Hk | Hk]; try discriminate; injection Hk as <-; reflexivity. }
  destruct H as [H | H].
  - destruct (Hgoal _ H (or_introl eq_refl)) as [He Hd].
    rewrite Hd. auto using timedelta_seconds_range.
  - destruct (Hgoal _ H (or_intror eq_refl)) as [He Hd].
    rewrite Hd. auto using timedelta_seconds_range.
Qed.

Lemma reported_elapsed_below_a_day_witness :
  let L := Demo.server 86405000000 500 (Some "HTTP Error 500: Internal Server Error") None in
  let self := Examples.scraper "//li" false in
  let kw : gmap string pyval :=
    {[ "url" := Examples.url;
       "msg" := PStr "Request failed";
       "response" := PStr "HTTP Error 500: Internal Server Error";
       "status_code" := PInt 500;
       "elapsed" := PInt 5 ]} in
  self_content self = "" /\
  _get_content self Demo.w0 = (FailJson kw, after_fetch self 86405000000 Demo.w0) /\
  exists n, kw !! "elapsed" = Some (PInt n) /\ 0 <= n < 86400 /\
            n = timedelta_seconds 86405000000.
Proof.
  intros L self kw.
  assert (Hg : _get_content self Demo.w0 =
                 (FailJson kw, after_fetch self 86405000000 Demo.w0))
    by (vm_compute; reflexivity).
  split; [reflexivity |]. split; [exact Hg |].
  exact (@reported_elapsed_below_a_day L self Demo.w0 _ kw eq_refl (or_intror Hg)).
Defined.



(** ** More on the normalisation *)

(** X8: the normalised match is [None] for the empty list and for
    nothing else: an element without text, an empty string, a zero or
    a false boolean are all content. *)
Theorem content_None_iff_empty_list (element : xobj) :
  _get_element_text element = PNone <-> element = XList [].
Proof.
  split.
  - destruct element as [e | l | s | f | b | r]; cbn [_get_element_text];
      try discriminate.
    destruct l; [reflexivity | discriminate].
  - intros ->. reflexivity.
Qed.

(** X9: a list as content comes from a list of matches only; it has as
    many members as were matched and is never empty. *)
Theorem list_content_from_list_match (element : xobj) (out : list pyval) :
  _get_element_text element = PList out ->
  exists l, element = XList l /\ out = map _get_element_text l /\
            length out = length l /\ out <> [].
Proof.
  destruct element as [e | l | s | f | b | r]; cbn [_get_element_text];
    try discriminate.
  destruct l as [| x l]; [discriminate |].
  intros H. injection H as <-. exists (x :: l).
  split; [reflexivity |]. split; [reflexivity |].
  split; [| discriminate]. exact (length_map _get_element_text (x :: l)).
Qed.

Lemma list_content_from_list_match_witness :
  let element := XList [XList []; XStr ""; XElement (Element "br" [] "" [] "")] in
  let out := [PNone; PStr ""; PStr ""] in
  _get_element_text element = PList out /\
  exists l, element = XList l /\ out = map _get_element_text l /\
            length out = length l /\ out <> [].
Proof.
  intros element out.
  assert (H : _get_element_text element = PList out) by reflexivity.
  split; [exact H |].
  exact (list_content_from_list_match element out H).
Defined.

(** X10: a record returned by [scrape] says [matched = false] exactly
    when the XPath evaluation of the parsed body gave the empty list;
    any other result, whatever its value, is reported as matched. *)
Theorem unmatched_iff_empty_result {L : Libs} (self : PageScraper)
    (w w' : world) (r : gmap string pyval) :
  scrape self w = (Ret r, w') ->
  exists body doc elem,
    lx_fromstring body = inr doc /\
    lx_xpath doc (self_xpath self) = inr elem /\
    (r !! "matched" = Some (PBool false) <-> elem = XList []) /\
    (r !! "matched" = Some (PBool true) <-> elem <> XList []).
Proof.
  intros H.
  destruct (scrape_returns _ _ _ _ H) as (body & w1 & doc & elem & _ & Hp & Hx & -> & _).
  exists body, doc, elem. split; [exact Hp |]. split; [exact Hx |].
  rewrite lookup_insert_eq.
  destruct elem as [e | l | s | f | b | rp]; cbn [_get_element_text is_not_None];
    try (split; split; intros; congruence).
  destruct l as [| x l]; cbn [is_not_None]; split; split; intros; congruence.
Qed.

Lemma unmatched_iff_empty_result_witness :
  let r : gmap string pyval := {[ "matched" := PBool false; "content" := PNone ]} in
  @scrape Examples.items_server (Examples.scraper "//table" false) Demo.w0 =
    (Ret r, Examples.queried GET Demo.items_src "//table") /\
  exists body doc elem,
    Demo.stub_fromstring body = inr doc /\
    Demo.stub_xpath doc (PStr "//table") = inr elem /\
    (r !! "matched" = Some (PBool false) <-> elem = XList []) /\
    (r !! "matched" = Some (PBool true) <-> elem <> XList []).
Proof.
  intros r.
  assert (H : @scrape Examples.items_server (Examples.scraper "//table" false) Demo.w0 =
                (Ret r, Examples.queried GET Demo.items_src "//table"))
    by (vm_compute; reflexivity).
  split; [exact H |].
  exact (@unmatched_iff_empty_result Examples.items_server _ _ _ _ H).
Defined.

(** ** More on the construction of the scraper and on [main] *)

Lemma init_returns {L : Libs} (module : AnsibleModule) (u x : pyval) (w : world) :
  params module !! "url" = Some u ->
  params module !! "xpath" = Some x ->
  __init__ module w =
    (Ret {| self_module := module;
            self_url := u;
            self_xpath := x;
            self_timeout := get (params module) "timeout" (PInt 10);
            self_content := "" |}, w).
Proof.
  intros Hu Hx. unfold __init__, getitem, mbind, M_bind, mret, M_ret.
  rewrite Hu, Hx. reflexivity.
Qed.

(** X11: a scraper built by [__init__] and then run makes exactly one
    request: to [params['url']], with HEAD in check mode and GET
    otherwise, and with the [timeout] entry of [params] as timeout, 10
    when [params] has no such entry. *)
Theorem init_then_scrape_requests_once {L : Libs} (module : AnsibleModule)
    (u x : pyval) (w : world) :
  params module !! "url" = Some u ->
  params module !! "xpath" = Some x ->
  exists rest,
    trace (snd ((__init__ module ≫= scrape) w)) =
      (trace w ++
       EvFetch (if check_mode module then HEAD else GET) u
               (default (PInt 10) (params module !! "timeout")) :: rest)%list /\
    forallb (fun ev => negb (is_fetch ev)) rest = true.
Proof.
  intros Hu Hx. unfold mbind at 1, M_bind at 1.
  rewrite (init_returns _ _ _ _ Hu Hx).
  set (self := {| self_module := module; self_url := u; self_xpath := x;
                  self_timeout := get (params module) "timeout" (PInt 10);
                  self_content := "" |}).
  destruct (scrape_trace self w) as (rest & Ht & Hrest).
  exists rest. split; [| exact Hrest].
  rewrite Ht, (get_content_world self w eq_refl). cbn [after_fetch trace].
  now rewrite <- app_assoc.
Qed.

Lemma init_then_scrape_requests_once_witness :
  let module := {| params := Demo.task "//li"; check_mode := false |} in
  params module !! "url" = Some Examples.url /\
  params module !! "xpath" = Some (PStr "//li") /\
  exists rest,
    trace (snd ((@__init__ module ≫= @scrape Examples.items_server) Demo.w0)) =
      EvFetch GET Examples.url (PInt 10) :: rest /\
    forallb (fun ev => negb (is_fetch ev)) rest = true.
Proof.
  intros module.
  assert (Hu : params module !! "url" = Some Examples.url) by reflexivity.
  assert (Hx : params module !! "xpath" = Some (PStr "//li")) by reflexivity.
  split; [exact Hu |]. split; [exact Hx |].
  exact (@init_then_scrape_requests_once Examples.items_server module _ _ Demo.w0 Hu Hx).
Defined.

(** X12: [__init__] on a module whose [params] lack [url] or [xpath]
    raises [KeyError] for the first of the two that is missing, [url]
    before [xpath], and touches nothing. *)
Theorem init_missing_key (module : AnsibleModule) (w : world) :
  params module !! "url" = None \/ params module !! "xpath" = None ->
  exists k,
    __init__ module w = (Raised (KeyError k), w) /\
    params module !! k = None /\
    (k = "url" \/ (k = "xpath" /\ params module !! "url" <> None)).
Proof.
  intros H. unfold __init__, getitem, mbind, M_bind, mret, M_ret, raise.
  destruct (params module !! "url") as [u |] eqn:Hu.
  - destruct H as [H | H]; [discriminate |].
    exists "xpath". split; [rewrite H; reflexivity |]. split; [exact H |].
    right. split; [reflexivity | discriminate].
  - exists "url". split; [reflexivity |]. split; [exact Hu |]. now left.
Qed.

Lemma init_missing_key_witness :
  let module := {| params := {[ "xpath" := PStr "//li" ]}; check_mode := false |} in
  (params module !! "url" = None \/ params module !! "xpath" = None) /\
  exists k,
    __init__ module Demo.w0 = (Raised (KeyError k), Demo.w0) /\
    params module !! k = None /\
    (k = "url" \/ (k = "xpath" /\ params module !! "url" <> None)).
Proof.
  intros module.
  assert (H : params module !! "url" = None \/ params module !! "xpath" = None)
    by (left; reflexivity).
  split; [exact H |].
  exact (init_missing_key module Demo.w0 H).
Defined.

(** X13: when the task gives a url, an xpath and an integer timeout,
    that timeout reaches the request unchanged. *)
Theorem supplied_timeout_is_used {L : Libs} (args : gmap string pyval)
    (check : bool) (us xs : string) (n : Z) (w : world) :
  args = {[ "url" := PStr us; "xpath" := PStr xs; "timeout" := PInt n ]} ->
  exists rest,
    trace (snd (main args check w)) =
      (trace w ++ EvFetch (if check then HEAD else GET) (PStr us) (PInt n) :: rest)%list /\
    forallb (fun ev => negb (is_fetch ev)) rest = true.
Proof.
  intros ->.
  set (args := ({[ "url" := PStr us; "xpath" := PStr xs; "timeout" := PInt n ]}
                : gmap string pyval)).
  assert (Hu : args !! "url" = Some (PStr us)) by reflexivity.
  assert (Hx : args !! "xpath" = Some (PStr xs)) by reflexivity.
  assert (Ht : args !! "timeout" = Some (PInt n)) by reflexivity.
  assert (Hto : self_timeout (main_scraper args check (PStr us) (PStr xs)) = PInt n).
  { cbn [self_timeout main_scraper]. unfold get.
    now rewrite (params_keep _ _ _ _ _ Hu Hx Ht). }
  rewrite (main_world _ _ _ _ _ Hu Hx).
  destruct (scrape_trace (main_scraper args check (PStr us) (PStr xs)) w)
    as (rest & Htr & Hrest).
  exists rest. split; [| exact Hrest].
  rewrite Htr, (get_content_world (main_scraper args check (PStr us) (PStr xs)) w eq_refl).
  cbn [after_fetch trace]. rewrite Hto, <- app_assoc. reflexivity.
Qed.

Lemma supplied_timeout_is_used_witness :
  let args : gmap string pyval :=
    {[ "url" := PStr "https://example.test/release";
       "xpath" := PStr "//li";
       "timeout" := PInt 30 ]} in
  args = {[ "url" := PStr "https://example.test/release";
            "xpath" := PStr "//li";
            "timeout" := PInt 30 ]} /\
  exists rest,
    trace (snd (@main Examples.items_server args true Demo.w0)) =
      EvFetch HEAD Examples.url (PInt 30) :: rest /\
    forallb (fun ev => negb (is_fetch ev)) rest = true.
Proof.
  intros args. split; [reflexivity |].
  exact (@supplied_timeout_is_used Examples.items_server args true
           "https://example.test/release" "//li" 30 Demo.w0 eq_refl).
Defined.

Lemma report_record (c : pyval) (w : world) :
  report {[ "matched" := PBool (is_not_None c); "content" := c ]} w =
    (ExitJson (if is_not_None c
               then <["changed" := PBool true]>
                      {[ "matched" := PBool (is_not_None c); "content" := c ]}
               else {[ "matched" := PBool (is_not_None c); "content" := c ]}),
     w).
Proof. unfold report, getitem. rewrite lookup_insert_eq. reflexivity. Qed.

(** X14: a record that [scrape] returns and whose content can be
    written as JSON is printed by [main] with its [matched] and
    [content] as they are; [changed] is added, as true, when the
    content is not [None], and is absent from the output otherwise.
    The output has no [url] and no [elapsed]. *)
Theorem changed_only_when_matched {L : Libs} (args : gmap string pyval)
    (check : bool) (u x : pyval) (w w' : world) (r : gmap string pyval) (c : pyval) :
  args !! "url" = Some u ->
  args !! "xpath" = Some x ->
  scrape (main_scraper args check u x) w = (Ret r, w') ->
  r !! "content" = Some c ->
  json_serialisable c = true ->
  exists kw,
    main args check w = (ExitJson kw, w') /\
    kw !! "matched" = r !! "matched" /\
    kw !! "content" = Some c /\
    (c = PNone -> kw !! "changed" = None) /\
    (c <> PNone -> kw !! "changed" = Some (PBool true)) /\
    kw !! "url" = None /\ kw !! "elapsed" = None.
Proof.
  intros Hu Hx Hs Hc _.
  destruct (scrape_returns _ _ _ _ Hs) as (body & w1 & doc & elem & _ & _ & _ & Hr & _).
  subst r. rewrite lookup_insert_ne in Hc by discriminate.
  rewrite lookup_singleton_eq in Hc. injection Hc as Hc.
  rewrite Hc in Hs |- *.
  eexists. split; [exact (main_result _ _ _ _ _ _ _ Hu Hx Hs) |].
  destruct c; cbn [is_not_None]; repeat split; try reflexivity;
    intros H; try reflexivity; try discriminate; exfalso; apply H; reflexivity.
Qed.

Lemma changed_only_when_matched_witness :
  let r : gmap string pyval := {[ "matched" := PBool false; "content" := PNone ]} in
  Demo.task "//table" !! "url" = Some Examples.url /\
  Demo.task "//table" !! "xpath" = Some (PStr "//table") /\
  @scrape Examples.items_server (Examples.scraper "//table" false) Demo.w0 =
    (Ret r, Examples.queried GET Demo.items_src "//table") /\
  r !! "content" = Some PNone /\
  json_serialisable PNone = true /\
  exists kw,
    @main Examples.items_server (Demo.task "//table") false Demo.w0 =
      (ExitJson kw, Examples.queried GET Demo.items_src "//table") /\
    kw !! "matched" = Some (PBool false) /\
    kw !! "content" = Some PNone /\
    (PNone = PNone -> kw !! "changed" = None) /\
    (PNone <> PNone -> kw !! "changed" = Some (PBool true)) /\
    kw !! "url" = None /\ kw !! "elapsed" = None.
Proof.
  intros r.
  assert (Hu : Demo.task "//table" !! "url" = Some Examples.url) by reflexivity.
  assert (Hx : Demo.task "//table" !! "xpath" = Some (PStr "//table")) by reflexivity.
  assert (Hs : @scrape Examples.items_server (Examples.scraper "//table" false) Demo.w0 =
                 (Ret r, Examples.queried GET Demo.items_src "//table"))
    by (vm_compute; reflexivity).
  assert (Hc : r !! "content" = Some PNone) by reflexivity.
  assert (Hj : json_serialisable PNone = true) by reflexivity.
  split; [exact Hu |]. split; [exact Hx |]. split; [exact Hs |].
  split; [exact Hc |]. split; [exact Hj |].
  exact (@changed_only_when_matched Examples.items_server (Demo.task "//table") false
           _ _ Demo.w0 _ r PNone Hu Hx Hs Hc Hj).
Defined.

(** X15: [main] never returns to its caller: whatever the arguments
    and the answers of the libraries, it ends in [exit_json], in
    [fail_json] or in an uncaught exception. *)
Theorem main_never_returns {L : Libs} (args : gmap string pyval) (check : bool)
    (w : world) :
  (exists kw, fst (main args check w) = ExitJson kw) \/
  (exists kw, fst (main args check w) = FailJson kw) \/
  (exists e, fst (main args check w) = Raised e).
Proof.
  unfold main, basic_AnsibleModule. rewrite andb_false_r.
  unfold mbind, M_bind, mret, M_ret, fail_json.
  destruct (missing_required argument_spec args); [| right; left; eauto].
  unfold __init__, getitem, mbind, M_bind, mret, M_ret, raise. cbn [params].
  destruct (set_defaults argument_spec args !! "url"); [| right; right; eauto].
  destruct (set_defaults argument_spec args !! "xpath"); [| right; right; eauto].
  match goal with
  | |- context [scrape ?s w] => destruct (scrape s w) as [[r | kw | kw | e] w1]
  end; cbn [fst]; eauto.
  destruct (r !! "matched"); cbn [fst]; unfold exit_json; cbn [fst]; eauto.
Qed.



(** X17: [main] ends in [exit_json] for two statuses only.  On 304 the
    output says [changed = false] and has neither [matched] nor
    [content]; on 200 it is the result record, in which [changed] is
    true or absent, never false. *)
Theorem exit_only_for_304_or_200 {L : Libs} (args : gmap string pyval)
    (check : bool) (u x : pyval) (w w' : world)
    (dt : Z) (resp : option string) (inf : info) (kw : gmap string pyval) :
  args !! "url" = Some u ->
  args !! "xpath" = Some x ->
  net (if check then HEAD else GET) u
      (self_timeout (main_scraper args check u x)) = (dt, resp, inf) ->
  main args check w = (ExitJson kw, w') ->
  (status inf = 304 /\
   kw !! "changed" = Some (PBool false) /\
   kw !! "matched" = None /\ kw !! "content" = None) \/
  (status inf = 200 /\
   exists c, kw !! "content" = Some c /\
             kw !! "matched" = Some (PBool (is_not_None c)) /\
             kw !! "changed" = (if is_not_None c then Some (PBool true) else None)).
Proof.
  intros Hu Hx Hnet H. rewrite (main_scrapes _ _ _ _ _ Hu Hx) in H.
  unfold mbind at 1, M_bind at 1 in H.
  destruct (scrape (main_scraper args check u x) w) as [[r | kw1 | kw1 | e] w1] eqn:Hs;
    try discriminate.
  - destruct (scrape_returns _ _ _ _ Hs) as (body & w2 & doc & elem & Hg & _ & _ & -> & _).
    destruct (get_content_inv (main_scraper args check u x) _ _ _ _ _ _ eq_refl Hnet Hg)
      as [_ Hcases].
    destruct Hcases as [[_ Ho] | [(_ & m & _ & Ho) | [(_ & _ & _ & m & _ & Ho) |
                       [(_ & _ & _ & Ho) | [(H200 & b & _ & Ho) | (_ & _ & Ho)]]]]];
      try discriminate.
    right. split; [exact H200 |].
    rewrite report_record in H. injection H as <- _.
    exists (_get_element_text elem).
    destruct (is_not_None (_get_element_text elem)); repeat split; reflexivity.
  - injection H as -> ->. apply scrape_exit_inv in Hs.
    destruct (get_content_inv (main_scraper args check u x) _ _ _ _ _ _ eq_refl Hnet Hs)
      as [_ Hcases].
    destruct Hcases as [[H304 Ho] | [(_ & m & _ & Ho) | [(_ & _ & _ & m & _ & Ho) |
                       [(_ & _ & _ & Ho) | [(_ & b & _ & Ho) | (_ & _ & Ho)]]]]];
      try discriminate.
    injection Ho as ->. left. repeat split; try reflexivity. exact H304.
Qed.

Lemma exit_only_for_304_or_200_witness :
  let L := Examples.items_server in
  let args := Demo.task "//li" in
  let kw : gmap string pyval :=
    {[ "matched" := PBool true;
       "content" := PList [PStr "one"; PStr "two 2!"; PStr "three"];
       "changed" := PBool true ]} in
  args !! "url" = Some Examples.url /\
  args !! "xpath" = Some (PStr "//li") /\
  net GET Examples.url (self_timeout (main_scraper args false Examples.url (PStr "//li"))) =
    (2500000, Some Demo.items_src, {| status := 200; msg := Some "OK (57 bytes)" |}) /\
  main args false Demo.w0 = (ExitJson kw, Examples.queried GET Demo.items_src "//li") /\
  ((200 = 304 /\
    kw !! "changed" = Some (PBool false) /\
    kw !! "matched" = None /\ kw !! "content" = None) \/
   (200 = 200 /\
    exists c, kw !! "content" = Some c /\
              kw !! "matched" = Some (PBool (is_not_None c)) /\
              kw !! "changed" = (if is_not_None c then Some (PBool true) else None))).
Proof.
  intros L args kw.
  assert (Hu : args !! "url" = Some Examples.url) by reflexivity.
  assert (Hx : args !! "xpath" = Some (PStr "//li")) by reflexivity.
  assert (Hm : main args false Demo.w0 =
                 (ExitJson kw, Examples.queried GET Demo.items_src "//li"))
    by (vm_compute; reflexivity).
  split; [exact Hu |]. split; [exact Hx |]. split; [reflexivity |]. split; [exact Hm |].
  exact (@exit_only_for_304_or_200 L args false _ _ Demo.w0 _ 2500000
           (Some Demo.items_src) {| status := 200; msg := Some "OK (57 bytes)" |} kw
           Hu Hx eq_refl Hm).
Defined.

(** X18: when a scraper that holds no content returns a record, the
    run consisted of exactly three outside calls, in this order: the
    request, the parser on the body of the response, and the XPath
    evaluator on the scraper's expression; the status was 200 and the
    record holds the normalised result of that evaluation. *)
Theorem returned_record_history {L : Libs} (self : PageScraper) (w w' : world)
    (dt : Z) (resp : option string) (inf : info) (r : gmap string pyval) :
  self_content self = "" ->
  net (if check_mode (self_module self) then HEAD else GET)
      (self_url self) (self_timeout self) = (dt, resp, inf) ->
  scrape self w = (Ret r, w') ->
  exists body doc elem,
    status inf = 200 /\ resp = Some body /\
    lx_fromstring body = inr doc /\
    lx_xpath doc (self_xpath self) = inr elem /\
    r !! "content" = Some (_get_element_text elem) /\
    now w' = now w + dt /\
    trace w' =
      (trace w ++
       [EvFetch (if check_mode (self_module self) then HEAD else GET)
                (self_url self) (self_timeout self);
        EvParse body;
        EvXPath (self_xpath self)])%list.
Proof.
  intros Hc Hnet H.
  destruct (scrape_returns _ _ _ _ H) as (body & w1 & doc & elem & Hg & Hp & Hx & -> & ->).
  destruct (get_content_inv _ _ _ _ _ _ _ Hc Hnet Hg) as [-> Hcases].
  destruct Hcases as [[_ Ho] | [(_ & m & _ & Ho) | [(_ & _ & _ & m & _ & Ho) |
                     [(_ & _ & _ & Ho) | [(H200 & b & Hr & Ho) | (_ & _ & Ho)]]]]];
    try discriminate.
  injection Ho as <-. exists body, doc, elem.
  repeat split; try assumption; try reflexivity.
  cbn [after_query after_fetch trace]. now rewrite <- !app_assoc.
Qed.

Lemma returned_record_history_witness :
  let L := Examples.items_server in
  let self := Examples.scraper "//li" false in
  let r : gmap string pyval :=
    {[ "matched" := PBool true;
       "content" := PList [PStr "one"; PStr "two 2!"; PStr "three"] ]} in
  self_content self = "" /\
  net GET (self_url self) (self_timeout self) =
    (2500000, Some Demo.items_src, {| status := 200; msg := Some "OK (57 bytes)" |}) /\
  scrape self Demo.w0 = (Ret r, Examples.queried GET Demo.items_src "//li") /\
  exists body doc elem,
    200 = 200 /\ Some Demo.items_src = Some body /\
    lx_fromstring body = inr doc /\
    lx_xpath doc (PStr "//li") = inr elem /\
    r !! "content" = Some (_get_element_text elem) /\
    now (Examples.queried GET Demo.items_src "//li") = now Demo.w0 + 2500000 /\
    trace (Examples.queried GET Demo.items_src "//li") =
      [EvFetch GET Examples.url PNone; EvParse body; EvXPath (PStr "//li")].
Proof.
  intros L self r.
  assert (Hs : scrape self Demo.w0 = (Ret r, Examples.queried GET Demo.items_src "//li"))
    by (vm_compute; reflexivity).
  split; [reflexivity |]. split; [reflexivity |]. split; [exact Hs |].
  exact (@returned_record_history L self Demo.w0 _ 2500000 (Some Demo.items_src)
           {| status := 200; msg := Some "OK (57 bytes)" |} r eq_refl eq_refl Hs).
Defined.
